(** * ginx: zero-downtime restart orchestration

    A shallow embedding of the upgrade / restart subsystem of
    [gaoxin19/ginx]:

    - [upgrader/upgrader.go]: [GracefulUpgrader] with [Listen], [Reload]
      and [WaitForSignal] (the self-managed, descriptor-passing strategy);
    - [engine.go]: [Engine] with [RegisterOnShutdown],
      [executeShutdownCallbacks], [GracefulServe] and [GracefulRun].

    Go code talks to the operating system and to an HTTP server.  Every
    such call is an entry of a trace ([Event]), and what the outside world
    answers is read from an [OS] record and a [Server] record, so that a
    theorem quantified over these records speaks about every behaviour of
    the outside world.  A run-time panic is an outcome of its own. *)

From Stdlib Require Import String Ascii List ZArith Lia Bool DecimalString.
Import ListNotations.

Local Open Scope string_scope.
Local Open Scope list_scope.

(** ** Go values *)

(** [error] values.  [fmt_Errorf msg err] is [fmt.Errorf(msg + ": %w", err)]:
    the wrapped error stays reachable. *)
Inductive error : Type :=
| errors_New (msg : string)
| fmt_Errorf (msg : string) (err : error).

Fixpoint Error (e : error) : string :=
  match e with
  | errors_New msg => msg
  | fmt_Errorf msg err => msg ++ ": " ++ Error err
  end.

(** A Go result pair [(T, error)] with exactly one side set. *)
Inductive Result (A : Type) : Type :=
| Ok (a : A)
| Err (e : error).
Arguments Ok {A} a.
Arguments Err {A} e.

(** [syscall.Signal] is an integer type; the Linux numbers. *)
Definition Signal := Z.
Definition SIGHUP : Signal := 1%Z.
Definition SIGINT : Signal := 2%Z.
Definition SIGQUIT : Signal := 3%Z.
Definition SIGTERM : Signal := 15%Z.

(** [time.Duration] counts nanoseconds. *)
Definition Duration := Z.
Definition time_Second : Duration := 1000000000%Z.

(** A [context.Context] made by [context.WithTimeout(context.Background(), d)]. *)
Record Context : Type := { ctx_timeout : Duration }.
Definition context_WithTimeout (d : Duration) : Context := {| ctx_timeout := d |}.

(** [*os.File]: a descriptor and a name. *)
Record File : Type := { f_fd : Z; f_name : string }.
Definition os_Stdin : File := {| f_fd := 0; f_name := "/dev/stdin" |}.
Definition os_Stdout : File := {| f_fd := 1; f_name := "/dev/stdout" |}.
Definition os_Stderr : File := {| f_fd := 2; f_name := "/dev/stderr" |}.
Definition os_NewFile (fd : Z) (name : string) : File := {| f_fd := fd; f_name := name |}.

(** The dynamic type behind a [net.Listener] interface value. *)
Inductive ListenerType : Type := TCPListener | UnixListener.

Record Listener : Type :=
  { l_type : ListenerType; l_fd : Z; l_network : string; l_address : string }.

(** [os.ProcAttr], the fields [Reload] sets. *)
Record ProcAttr : Type := { Env : list string; Files : list File }.

Record Process : Type := { Pid : Z }.

(** ** The environment block *)

(** Go keeps the environment as a list of ["KEY=value"] strings and looks
    a key up at the first entry that carries it ([syscall.copyenv]). *)
Fixpoint cut_eq (s : string) : option (string * string) :=
  match s with
  | EmptyString => None
  | String c s' =>
      if Ascii.eqb c "="%char then Some (EmptyString, s')
      else match cut_eq s' with
           | Some (k, v) => Some (String c k, v)
           | None => None
           end
  end.

Fixpoint LookupEnv (envs : list string) (key : string) : option string :=
  match envs with
  | [] => None
  | s :: rest =>
      match cut_eq s with
      | Some (k, v) => if String.eqb k key then Some v else LookupEnv rest key
      | None => LookupEnv rest key
      end
  end.

(** [os.Getenv]: the empty string when the variable is not there. *)
Definition Getenv (envs : list string) (key : string) : string :=
  match key with
  | EmptyString => EmptyString
  | _ => match LookupEnv envs key with
         | Some v => v
         | None => EmptyString
         end
  end.

(** ** The outside world *)

(** What the operating system answers.  [os_Executable], [TCPListener_File]
    and [os_StartProcess] take the number of reload attempts made so far, so
    that one attempt may fail and a later one succeed. *)
Record OS : Type :=
  { os_Getpid : Z;
    os_Getppid : Z;
    os_Environ : list string;
    os_Args : list string;
    os_Executable : nat -> Result string;
    net_Listen : string -> string -> Result Listener;
    net_FileListener : File -> Result Listener;
    TCPListener_File : nat -> Listener -> Result File;
    os_StartProcess : nat -> string -> list string -> ProcAttr -> Result Process }.

Definition os_Getenv (os : OS) (key : string) : string := Getenv (os_Environ os) key.

(** The only capability [WaitForSignal] and [GracefulServe] ask of a
    server: [Shutdown(ctx) error]; [None] is a nil error. *)
Record Server : Type := { srv_Shutdown : Context -> option error }.

(** ** Traces and outcomes *)

Inductive Level : Type := InfoLevel | ErrorLevel.

Inductive Field : Type :=
| zap_Int (key : string) (v : Z)
| zap_Error (err : error).

Inductive Event : Type :=
| EvLog (lvl : Level) (msg : string) (fields : list Field)
| EvFileListener (f : File)
| EvFileClose (f : File)
| EvNetListen (network address : string)
| EvListenerFile (l : Listener)
| EvStartProcess (name : string) (argv : list string) (attr : ProcAttr)
| EvShutdown (ctx : Context)
| EvCancel (ctx : Context)
| EvCallback (id : nat)
| EvNotify (sigs : list Signal)
| EvGoServe (l : Listener)
| EvGoListenAndServe.

Definition Trace := list Event.

Inductive Outcome (A : Type) : Type :=
| Done (a : A)
| Panic (msg : string).
Arguments Done {A} a.
Arguments Panic {A} msg.

(** A computation: how it ended and what it did on the way. *)
Definition M (A : Type) : Type := (Outcome A * Trace)%type.

Definition ret {A : Type} (a : A) : M A := (Done a, []).

Definition bind {A B : Type} (m : M A) (k : A -> M B) : M B :=
  match m with
  | (Done a, t) => let (o, t') := k a in (o, t ++ t')
  | (Panic msg, t) => (Panic msg, t)
  end.

Definition emit (e : Event) : M unit := (Done tt, [e]).

Definition panic {A : Type} (msg : string) : M A := (Panic msg, []).

(** [defer d; body]: [d] runs when [body] is left, also by a panic. *)
Definition defer {A : Type} (d : Event) (body : M A) : M A :=
  let (o, t) := body in (o, t ++ [d]).

Declare Scope go_scope.
Delimit Scope go_scope with go.
Notation "x <- m ;; k" := (bind m (fun x => k))
  (at level 61, m at next level, right associativity) : go_scope.
Notation "m ;; k" := (bind m (fun _ => k))
  (at level 61, right associativity) : go_scope.
Local Open Scope go_scope.

Definition outcome {A : Type} (m : M A) : Outcome A := fst m.
Definition trace {A : Type} (m : M A) : Trace := snd m.

Definition log (lvl : Level) (msg : string) (fields : list Field) : M unit :=
  emit (EvLog lvl msg fields).

(** ** Package upgrader *)

Record GracefulUpgrader : Type :=
  { ln : option Listener;   (* nil until Listen succeeds *)
    pid : Z;
    ppid : Z }.

Definition NewGracefulUpgrader (os : OS) : GracefulUpgrader :=
  {| ln := None; pid := os_Getpid os; ppid := os_Getppid os |}.

Definition set_ln (g : GracefulUpgrader) (l : Listener) : GracefulUpgrader :=
  {| ln := Some l; pid := pid g; ppid := ppid g |}.

Definition GRACEFUL_RESTART : string := "GRACEFUL_RESTART".

(** [func (g *GracefulUpgrader) Listen(network, address string) (net.Listener, error)].
    The receiver is a pointer: the upgrader after the call is returned too. *)
Definition Listen (os : OS) (g : GracefulUpgrader) (network address : string)
  : M (Result Listener * GracefulUpgrader) :=
  if String.eqb (os_Getenv os GRACEFUL_RESTART) "true" then
    log InfoLevel "Inheriting listener from parent process"
        [zap_Int "pid" (pid g); zap_Int "ppid" (ppid g)] ;;
    let f := os_NewFile 3 "" in
    emit (EvFileListener f) ;;
    match net_FileListener os f with
    | Err err => ret (Err (fmt_Errorf "failed to inherit listener" err), g)
    | Ok l =>
        emit (EvFileClose f) ;;
        ret (Ok l, set_ln g l)
    end
  else
    emit (EvNetListen network address) ;;
    match net_Listen os network address with
    | Err err => ret (Err (fmt_Errorf "failed to create listener" err), g)
    | Ok l => ret (Ok l, set_ln g l)
    end.

(** The unchecked type assertion [g.ln.( *net.TCPListener)]. *)
Definition assert_TCPListener (l : option Listener) : M Listener :=
  match l with
  | None => panic "interface conversion: interface is nil, not *net.TCPListener"
  | Some l' =>
      match l_type l' with
      | TCPListener => ret l'
      | UnixListener =>
          panic "interface conversion: net.Listener is *net.UnixListener, not *net.TCPListener"
      end
  end.

(** [func (g *GracefulUpgrader) Reload() error]; [n] reload attempts came
    before this one. *)
Definition Reload (os : OS) (g : GracefulUpgrader) (n : nat) : M (option error) :=
  log InfoLevel "Starting graceful reload" [zap_Int "old_pid" (pid g)] ;;
  match os_Executable os n with
  | Err err => ret (Some (fmt_Errorf "failed to get executable path" err))
  | Ok executable =>
      tcp <- assert_TCPListener (ln g) ;;
      emit (EvListenerFile tcp) ;;
      match TCPListener_File os n tcp with
      | Err err => ret (Some (fmt_Errorf "failed to get listener file" err))
      | Ok listenerFile =>
          defer (EvFileClose listenerFile)
            (let env := os_Environ os ++ ["GRACEFUL_RESTART=true"] in
             let attr := {| Env := env;
                            Files := [os_Stdin; os_Stdout; os_Stderr; listenerFile] |} in
             emit (EvStartProcess executable (os_Args os) attr) ;;
             match os_StartProcess os n executable (os_Args os) attr with
             | Err err => ret (Some (fmt_Errorf "failed to start new process" err))
             | Ok process =>
                 log InfoLevel "Started new process" [zap_Int "new_pid" (Pid process)] ;;
                 ret None
             end)
      end
  end.

(** How far the signal loop got on the signals delivered so far. *)
Inductive LoopResult : Type :=
| Returned (err : option error)   (* WaitForSignal returned *)
| Waiting.                        (* blocked in [<-signalChan] *)

(** [func (g *GracefulUpgrader) WaitForSignal(server) error], run on the
    signals [signalChan] hands over, in order. *)
Fixpoint WaitForSignal_loop (os : OS) (g : GracefulUpgrader) (server : Server)
    (n : nat) (signalChan : list Signal) : M LoopResult :=
  match signalChan with
  | [] => ret Waiting
  | sig :: rest =>
      if Z.eqb sig SIGHUP then
        r <- Reload os g n ;;
        match r with
        | Some err =>
            log ErrorLevel "Failed to reload" [zap_Error err] ;;
            WaitForSignal_loop os g server (S n) rest
        | None =>
            let ctx := context_WithTimeout (30 * time_Second)%Z in
            defer (EvCancel ctx)
              (emit (EvShutdown ctx) ;;
               match srv_Shutdown server ctx with
               | Some err =>
                   log ErrorLevel "Failed to shutdown" [zap_Error err] ;;
                   ret (Returned (Some err))
               | None =>
                   log InfoLevel "Graceful reload completed" [zap_Int "pid" (pid g)] ;;
                   ret (Returned None)
               end)
        end
      else if Z.eqb sig SIGTERM || Z.eqb sig SIGINT then
        let ctx := context_WithTimeout (30 * time_Second)%Z in
        defer (EvCancel ctx)
          (emit (EvShutdown ctx) ;;
           match srv_Shutdown server ctx with
           | Some err =>
               log ErrorLevel "Failed to shutdown" [zap_Error err] ;;
               ret (Returned (Some err))
           | None =>
               log InfoLevel "Graceful shutdown completed" [zap_Int "pid" (pid g)] ;;
               ret (Returned None)
           end)
      else WaitForSignal_loop os g server n rest
  end.

Definition WaitForSignal (os : OS) (g : GracefulUpgrader) (server : Server)
    (signalChan : list Signal) : M LoopResult :=
  emit (EvNotify [SIGHUP; SIGTERM; SIGINT]) ;;
  WaitForSignal_loop os g server 0 signalChan.

(** ** Package ginx *)

(** [config.Options], the fields the lifecycle code reads. *)
Record Options : Type :=
  { Port : Z; ReadTimeout : Duration; WriteTimeout : Duration }.

(** A registered [func()]: invoking it is an [EvCallback] entry; like any
    Go function it may panic instead of returning. *)
Record Callback : Type := { cb_id : nat; cb_panics : bool }.

Record Engine : Type :=
  { server : Server;
    options : Options;
    shutdownCallbacks : list Callback }.

(** [strconv]-style decimal rendering, as [%d] prints an [int]. *)
Definition Itoa (z : Z) : string := NilZero.string_of_int (Z.to_int z).

(** [fmt.Sprintf(":%d", port)] *)
Definition port_address (port : Z) : string := ":" ++ Itoa port.

(** [func (engine *Engine) RegisterOnShutdown(f func())] *)
Definition RegisterOnShutdown (engine : Engine) (f : Callback) : Engine :=
  {| server := server engine;
     options := options engine;
     shutdownCallbacks := shutdownCallbacks engine ++ [f] |}.

Definition call (cb : Callback) : M unit :=
  emit (EvCallback (cb_id cb)) ;;
  if cb_panics cb then panic "callback panicked" else ret tt.

(** [for _, cb := range cbs { cb() }] *)
Fixpoint range_call (cbs : list Callback) : M unit :=
  match cbs with
  | [] => ret tt
  | cb :: rest => call cb ;; range_call rest
  end.

(** [func (engine *Engine) executeShutdownCallbacks()] *)
Definition executeShutdownCallbacks (engine : Engine) : M unit :=
  range_call (shutdownCallbacks engine).

(** Which case of the [select] in [GracefulServe] fires. *)
Inductive SelectCase : Type :=
| RecvQuit (sig : Signal)     (* case <-quit *)
| RecvErr (err : error).      (* case err := <-errChan *)

(** [func (engine *Engine) GracefulServe(server *http.Server) error] *)
Definition GracefulServe (engine : Engine) (srv : Server) (sel : SelectCase)
  : M (option error) :=
  emit (EvNotify [SIGINT; SIGTERM; SIGQUIT]) ;;
  emit EvGoListenAndServe ;;
  match sel with
  | RecvQuit _ =>
      log InfoLevel "Received shutdown signal, starting graceful shutdown..." [] ;;
      let ctx := context_WithTimeout (30 * time_Second)%Z in
      defer (EvCancel ctx)
        (executeShutdownCallbacks engine ;;
         emit (EvShutdown ctx) ;;
         match srv_Shutdown srv ctx with
         | Some err =>
             log ErrorLevel "Server shutdown error" [zap_Error err] ;;
             ret (Some (fmt_Errorf "server shutdown error" err))
         | None =>
             log InfoLevel "Server has been shutdown successfully" [] ;;
             ret None
         end)
  | RecvErr err => ret (Some (fmt_Errorf "HTTP server error" err))
  end.

(** [func (e *Engine) GracefulRun() error].  The goroutine that calls
    [e.server.Serve(ln)] is the [EvGoServe] entry; it runs beside the
    signal loop and takes no part in what [GracefulRun] returns. *)
Definition GracefulRun (os : OS) (e : Engine) (signalChan : list Signal) : M LoopResult :=
  let graceful := NewGracefulUpgrader os in
  r <- Listen os graceful "tcp" (port_address (Port (options e))) ;;
  match r with
  | (Err err, _) => ret (Returned (Some (fmt_Errorf "failed to create listener" err)))
  | (Ok l, graceful') =>
      log InfoLevel "Server is starting"
          [zap_Int "port" (Port (options e)); zap_Int "pid" (os_Getpid os)] ;;
      emit (EvGoServe l) ;;
      WaitForSignal os graceful' (server e) signalChan
  end.

(** ** Reading a trace *)

(** The callbacks invoked, in the order of invocation. *)
Fixpoint callbacks_of (t : Trace) : list nat :=
  match t with
  | [] => []
  | EvCallback id :: t' => id :: callbacks_of t'
  | _ :: t' => callbacks_of t'
  end.

(** The contexts the server's [Shutdown] was called with. *)
Fixpoint shutdowns_of (t : Trace) : list Context :=
  match t with
  | [] => []
  | EvShutdown ctx :: t' => ctx :: shutdowns_of t'
  | _ :: t' => shutdowns_of t'
  end.

(** The parameters of every [os.StartProcess] call. *)
Fixpoint spawns_of (t : Trace) : list (string * list string * ProcAttr) :=
  match t with
  | [] => []
  | EvStartProcess name argv attr :: t' => (name, argv, attr) :: spawns_of t'
  | _ :: t' => spawns_of t'
  end.

(** The fresh binds ([net.Listen]) performed. *)
Fixpoint binds_of (t : Trace) : list (string * string) :=
  match t with
  | [] => []
  | EvNetListen network address :: t' => (network, address) :: binds_of t'
  | _ :: t' => binds_of t'
  end.

(** The descriptors wrapped into a listener ([net.FileListener]). *)
Fixpoint wraps_of (t : Trace) : list Z :=
  match t with
  | [] => []
  | EvFileListener f :: t' => f_fd f :: wraps_of t'
  | _ :: t' => wraps_of t'
  end.

(** ** The spec's vocabulary, read off the code *)

(** The Reload Marker variable is in the environment, whatever its value. *)
Definition marker_present (os : OS) : Prop :=
  LookupEnv (os_Environ os) GRACEFUL_RESTART <> None.

(** The spec's error classes are not Go types; they are told apart by the
    message the code wraps the cause in. *)
Definition AcquireError (e : error) : Prop :=
  exists cause,
    e = fmt_Errorf "failed to inherit listener" cause \/
    e = fmt_Errorf "failed to create listener" cause.

Definition SpawnError (e : error) : Prop :=
  exists cause,
    e = fmt_Errorf "failed to get executable path" cause \/
    e = fmt_Errorf "failed to get listener file" cause \/
    e = fmt_Errorf "failed to start new process" cause.

(** The context every drain is given. *)
Definition ctx30 : Context := context_WithTimeout (30 * time_Second)%Z.

(** The Upgrade State the orchestrating loop is in after a run. *)
Inductive UpgradeState : Type := Running | Exited | Crashed.

Definition state_of (run : M LoopResult) : UpgradeState :=
  match outcome run with
  | Done Waiting => Running
  | Done (Returned _) => Exited
  | Panic _ => Crashed
  end.

(** ** Concrete worlds *)

Definition context_DeadlineExceeded : error := errors_New "context deadline exceeded".

(** [net.Listen]: stream networks give a [*net.TCPListener], unix ones a
    [*net.UnixListener]. *)
Definition linux_Listen (network address : string) : Result Listener :=
  if String.eqb network "tcp" || String.eqb network "tcp4" || String.eqb network "tcp6" then
    Ok {| l_type := TCPListener; l_fd := 7; l_network := network; l_address := address |}
  else if String.eqb network "unix" || String.eqb network "unixpacket" then
    Ok {| l_type := UnixListener; l_fd := 7; l_network := network; l_address := address |}
  else Err (errors_New "unknown network").

(** A freshly started process on a healthy machine. *)
Definition linux : OS :=
  {| os_Getpid := 4242;
     os_Getppid := 1;
     os_Environ := ["PATH=/usr/bin"; "HOME=/root"];
     os_Args := ["/srv/app"; "-config"; "app.yaml"];
     os_Executable := fun _ => Ok "/srv/app";
     net_Listen := linux_Listen;
     net_FileListener := fun f =>
       Ok {| l_type := TCPListener; l_fd := f_fd f; l_network := "tcp"; l_address := ":8080" |};
     TCPListener_File := fun _ l => Ok {| f_fd := 9; f_name := "tcp:" ++ l_address l |};
     os_StartProcess := fun _ _ _ _ => Ok {| Pid := 4243 |} |}.

Definition with_Environ (os : OS) (envs : list string) : OS :=
  {| os_Getpid := os_Getpid os;
     os_Getppid := os_Getppid os;
     os_Environ := envs;
     os_Args := os_Args os;
     os_Executable := os_Executable os;
     net_Listen := net_Listen os;
     net_FileListener := net_FileListener os;
     TCPListener_File := TCPListener_File os;
     os_StartProcess := os_StartProcess os |}.

(** Descriptor 3 is not a socket. *)
Definition with_bad_fd3 (os : OS) : OS :=
  {| os_Getpid := os_Getpid os;
     os_Getppid := os_Getppid os;
     os_Environ := os_Environ os;
     os_Args := os_Args os;
     os_Executable := os_Executable os;
     net_Listen := net_Listen os;
     net_FileListener := fun _ => Err (errors_New "file file+net : bad file descriptor");
     TCPListener_File := TCPListener_File os;
     os_StartProcess := os_StartProcess os |}.

(** The first [k] attempts to start a process fail. *)
Definition with_failing_spawns (os : OS) (k : nat) : OS :=
  {| os_Getpid := os_Getpid os;
     os_Getppid := os_Getppid os;
     os_Environ := os_Environ os;
     os_Args := os_Args os;
     os_Executable := os_Executable os;
     net_Listen := net_Listen os;
     net_FileListener := net_FileListener os;
     TCPListener_File := TCPListener_File os;
     os_StartProcess := fun n name argv attr =>
       if Nat.ltb n k then Err (errors_New "fork/exec: resource temporarily unavailable")
       else os_StartProcess os n name argv attr |}.

(** A server that needs [d] nanoseconds to finish its work in flight:
    [Shutdown] gives up with the context's error at the deadline. *)
Definition draining_server (d : Duration) : Server :=
  {| srv_Shutdown := fun ctx =>
       if Z.leb d (ctx_timeout ctx) then None else Some context_DeadlineExceeded |}.

Definition quick_server : Server := draining_server (2 * time_Second)%Z.
Definition stuck_server : Server := draining_server (3600 * time_Second)%Z.

Definition default_Options : Options :=
  {| Port := 8080;
     ReadTimeout := (time_Second * 30)%Z;
     WriteTimeout := (time_Second * 30)%Z |}.

Definition new_Engine (srv : Server) : Engine :=
  {| server := srv; options := default_Options; shutdownCallbacks := [] |}.

Definition flush_metrics : Callback := {| cb_id := 1; cb_panics := false |}.
Definition close_database : Callback := {| cb_id := 2; cb_panics := false |}.

(** An engine on which two callbacks were registered, in this order. *)
Definition engine_with_callbacks (srv : Server) : Engine :=
  RegisterOnShutdown (RegisterOnShutdown (new_Engine srv) flush_metrics) close_database.

(** The upgrader after [Listen("unix", "/run/ginx.sock")]. *)
Definition unix_upgrader : GracefulUpgrader :=
  {| ln := Some {| l_type := UnixListener; l_fd := 7; l_network := "unix";
                   l_address := "/run/ginx.sock" |};
     pid := 4242; ppid := 1 |}.

Definition tcp_upgrader : GracefulUpgrader :=
  {| ln := Some {| l_type := TCPListener; l_fd := 7; l_network := "tcp"; l_address := ":8080" |};
     pid := 4242; ppid := 1 |}.

(** ** More of the vocabulary *)

(** The files closed, in order. *)
Fixpoint closes_of (t : Trace) : list File :=
  match t with
  | [] => []
  | EvFileClose f :: t' => f :: closes_of t'
  | _ :: t' => closes_of t'
  end.

(** The error entries written to the log. *)
Fixpoint errors_logged (t : Trace) : list string :=
  match t with
  | [] => []
  | EvLog ErrorLevel msg _ :: t' => msg :: errors_logged t'
  | _ :: t' => errors_logged t'
  end.

(** [RegisterOnShutdown] called once for each of [cbs], in order. *)
Definition register_all (engine : Engine) (cbs : list Callback) : Engine :=
  fold_left RegisterOnShutdown cbs engine.

(** The signals the [switch] of [WaitForSignal] has a case for. *)
Definition handled (sig : Signal) : bool :=
  Z.eqb sig SIGHUP || Z.eqb sig SIGTERM || Z.eqb sig SIGINT.

(** The process [os.StartProcess] makes: the same machine, the environment
    block handed over in [attr]. *)
Definition child_of (os : OS) (attr : ProcAttr) : OS := with_Environ os (Env attr).

(** No executable path can be resolved. *)
Definition with_no_executable (os : OS) : OS :=
  {| os_Getpid := os_Getpid os;
     os_Getppid := os_Getppid os;
     os_Environ := os_Environ os;
     os_Args := os_Args os;
     os_Executable := fun _ => Err (errors_New "readlink /proc/self/exe: permission denied");
     net_Listen := net_Listen os;
     net_FileListener := net_FileListener os;
     TCPListener_File := TCPListener_File os;
     os_StartProcess := os_StartProcess os |}.

(** The address is taken. *)
Definition with_port_in_use (os : OS) : OS :=
  {| os_Getpid := os_Getpid os;
     os_Getppid := os_Getppid os;
     os_Environ := os_Environ os;
     os_Args := os_Args os;
     os_Executable := os_Executable os;
     net_Listen := fun _ _ => Err (errors_New "bind: address already in use");
     net_FileListener := net_FileListener os;
     TCPListener_File := TCPListener_File os;
     os_StartProcess := os_StartProcess os |}.

Definition failing_callback : Callback := {| cb_id := 3; cb_panics := true |}.

(** ** The broker-backed upgrader and [Engine.Run] *)

Module Broker.

(** What the [tableflip] library answers.  [upg_Upgrade] takes the number of
    upgrades asked for before; [exit_closed k] tells whether the channel of
    [Exit()] is closed once [Stop()] was called [k] times. *)
Record Tableflip : Type :=
  { tableflip_New : option error;
    upg_Listen : string -> string -> Result Listener;
    upg_Ready : option error;
    upg_Upgrade : nat -> option error;
    exit_closed : nat -> bool }.

Inductive Call : Type :=
| CallNew
| CallListen (network addr : string)
| CallReady
| CallStop
| CallUpgrade
| CallNotify (sigs : list Signal)
| CallGoServe (l : Listener)
| CallLog (lvl : Level) (msg : string) (fields : list Field).

(** A computation of this package: its result and the calls it made. *)
Definition B (A : Type) : Type := (A * list Call)%type.

Definition retB {A : Type} (a : A) : B A := (a, []).

Definition bindB {A C : Type} (m : B A) (k : A -> B C) : B C :=
  let (a, t) := m in let (c, t') := k a in (c, t ++ t').

Definition emitB (c : Call) : B unit := (tt, [c]).

(** [defer d]: [d] runs when the function returns, not while it is blocked. *)
Definition deferB (d : Call) (body : B LoopResult) : B LoopResult :=
  let (r, t) := body in
  match r with
  | Returned _ => (r, t ++ [d])
  | Waiting => (r, t)
  end.

Declare Scope broker_scope.
Notation "x <- m ;; k" := (bindB m (fun x => k))
  (at level 61, m at next level, right associativity) : broker_scope.
Notation "m ;; k" := (bindB m (fun _ => k))
  (at level 61, right associativity) : broker_scope.
Local Open Scope broker_scope.

(** [func New(logger *zap.Logger) (Upgrader, error)] *)
Definition New (tf : Tableflip) : B (Result unit) :=
  emitB CallNew ;;
  match tableflip_New tf with
  | Some err => retB (Err (fmt_Errorf "failed to create upgrader" err))
  | None => retB (Ok tt)
  end.

(** [func (u *upgrader) Listen(network, addr string) (net.Listener, error)] *)
Definition Listen (tf : Tableflip) (network addr : string) : B (Result Listener) :=
  emitB (CallListen network addr) ;;
  match upg_Listen tf network addr with
  | Err err => retB (Err (fmt_Errorf "failed to create listener" err))
  | Ok l => retB (Ok l)
  end.

(** [func (u *upgrader) Ready() error] *)
Definition Ready (tf : Tableflip) : B (option error) :=
  emitB CallReady ;; retB (upg_Ready tf).

(** [func (u *upgrader) Stop()] *)
Definition Stop : B unit := emitB CallStop.

(** The goroutine of [WatchSignal]: [for range sig], on the signals the
    channel hands over; [n] upgrades were asked for before. *)
Fixpoint WatchSignal_loop (tf : Tableflip) (n : nat) (sig : list Signal) : B unit :=
  match sig with
  | [] => retB tt
  | _ :: rest =>
      emitB CallUpgrade ;;
      match upg_Upgrade tf n with
      | Some err => emitB (CallLog ErrorLevel "Upgrade failed" [zap_Error err])
      | None => retB tt
      end ;;
      WatchSignal_loop tf (S n) rest
  end.

(** [func (u *upgrader) WatchSignal()] *)
Definition WatchSignal (tf : Tableflip) (sig : list Signal) : B unit :=
  emitB (CallNotify [SIGHUP]) ;;
  WatchSignal_loop tf 0 sig.

(** What [e.server.Serve(ln)] has done while [Run] waits on [Exit()]. *)
Inductive ServeOutcome : Type :=
| Serving                      (* has not returned *)
| ServerClosed                 (* returned http.ErrServerClosed *)
| ServeFailed (err : error).   (* returned any other error *)

(** The goroutine [Run] starts; its result is the number of [Stop()] calls
    it made. *)
Definition serve_goroutine (serve : ServeOutcome) : B nat :=
  match serve with
  | ServeFailed err =>
      emitB (CallLog ErrorLevel "Server error" [zap_Error err]) ;;
      Stop ;;
      retB 1
  | _ => retB 0
  end.

(** [func (e *Engine) Run() error] *)
Definition Run (tf : Tableflip) (e : Engine) (serve : ServeOutcome) : B LoopResult :=
  r <- New tf ;;
  match r with
  | Err err => retB (Returned (Some (fmt_Errorf "failed to create upgrader" err)))
  | Ok _ =>
      deferB CallStop
        (r <- Listen tf "tcp" (port_address (Port (options e))) ;;
         match r with
         | Err err => retB (Returned (Some (fmt_Errorf "failed to create listener" err)))
         | Ok l =>
             r <- Ready tf ;;
             match r with
             | Some err => retB (Returned (Some (fmt_Errorf "failed to mark as ready" err)))
             | None =>
                 emitB (CallLog InfoLevel "Server is starting"
                                [zap_Int "port" (Port (options e))]) ;;
                 emitB (CallGoServe l) ;;
                 stops <- serve_goroutine serve ;;
                 if exit_closed tf stops then retB (Returned None) else retB Waiting
             end
         end)
  end.

(** How often the calls of a run contain [c]-like entries. *)
Definition is_Stop (c : Call) : bool := match c with CallStop => true | _ => false end.
Definition is_Upgrade (c : Call) : bool := match c with CallUpgrade => true | _ => false end.
Definition is_Notify (c : Call) : bool := match c with CallNotify _ => true | _ => false end.
Definition is_GoServe (c : Call) : bool := match c with CallGoServe _ => true | _ => false end.
Definition is_failure_log (c : Call) : bool :=
  match c with CallLog ErrorLevel _ _ => true | _ => false end.

(** A broker on which everything works, and whose [Exit()] is closed by the
    first [Stop()]. *)
Definition healthy : Tableflip :=
  {| tableflip_New := None;
     upg_Listen := fun network addr =>
       Ok {| l_type := TCPListener; l_fd := 7; l_network := network; l_address := addr |};
     upg_Ready := None;
     upg_Upgrade := fun _ => None;
     exit_closed := fun k => Nat.ltb 0 k |}.

Definition with_Listen_error (tf : Tableflip) (err : error) : Tableflip :=
  {| tableflip_New := tableflip_New tf;
     upg_Listen := fun _ _ => Err err;
     upg_Ready := upg_Ready tf;
     upg_Upgrade := upg_Upgrade tf;
     exit_closed := exit_closed tf |}.

(** Every second upgrade fails. *)
Definition with_flaky_Upgrade (tf : Tableflip) : Tableflip :=
  {| tableflip_New := tableflip_New tf;
     upg_Listen := upg_Listen tf;
     upg_Ready := upg_Ready tf;
     upg_Upgrade := fun n => if Nat.even n then Some (errors_New "parent hasn't exited") else None;
     exit_closed := exit_closed tf |}.

End Broker.

(** ** The logger *)

Module Logger.

(** [LogConfig] *)
Record LogConfig : Type :=
  { Level : string;
    Filename : string;
    MaxSize : Z;
    MaxAge : Z;
    MaxBackups : Z;
    Compress : bool;
    LocalTime : bool;
    Console : bool }.

(** [lumberjack.Logger], as [NewLogger] fills it. *)
Record lumberjack_Logger : Type :=
  { lj_Filename : string;
    lj_MaxSize : Z;
    lj_MaxBackups : Z;
    lj_MaxAge : Z;
    lj_Compress : bool;
    lj_LocalTime : bool }.

Inductive WriteSyncer : Type :=
| AddSync (w : lumberjack_Logger)
| Lock_Stdout.

(** Both encoders are built from [newEncoderConfig()]. *)
Inductive Encoder : Type := NewJSONEncoder | NewConsoleEncoder.

(** [zapcore.NewCore(enc, ws, level)]; a [zapcore.Level] is an integer. *)
Record Core : Type := { core_enc : Encoder; core_ws : WriteSyncer; core_level : Z }.

(** [zap.New(zapcore.NewTee(cores...), zap.AddCaller(), zap.AddCallerSkip(skip))] *)
Record zap_Logger : Type := { tee : list Core; AddCaller : bool; AddCallerSkip : Z }.

(** What the libraries answer. *)
Record World : Type :=
  { filepath_Dir : string -> string;
    os_MkdirAll : string -> Z -> option error;
    zapcore_ParseLevel : string -> Result Z }.

Inductive FsCall : Type := MkdirAll (path : string) (perm : Z).

Definition nonempty (s : string) : bool := negb (String.eqb s "").

(** The mode [0744]. *)
Definition perm_0744 : Z := (7 * 64 + 4 * 8 + 4)%Z.

(** [func NewLogger(conf *LogConfig) ( *zap.Logger, error)]: the result and
    the calls made to the file system. *)
Definition NewLogger (w : World) (conf : LogConfig) : Result zap_Logger * list FsCall :=
  let made :=
    if nonempty (Filename conf)
    then [MkdirAll (filepath_Dir w (Filename conf)) perm_0744] else [] in
  match (if nonempty (Filename conf)
         then os_MkdirAll w (filepath_Dir w (Filename conf)) perm_0744
         else None) with
  | Some err => (Err (fmt_Errorf "can't create log directory" err), made)
  | None =>
      match zapcore_ParseLevel w (Level conf) with
      | Err err => (Err (fmt_Errorf "parse log level error" err), made)
      | Ok level =>
          let cores := [] in
          let cores :=
            if nonempty (Filename conf)
            then cores ++ [{| core_enc := NewJSONEncoder;
                              core_ws := AddSync {| lj_Filename := Filename conf;
                                                    lj_MaxSize := MaxSize conf;
                                                    lj_MaxBackups := MaxBackups conf;
                                                    lj_MaxAge := MaxAge conf;
                                                    lj_Compress := Compress conf;
                                                    lj_LocalTime := LocalTime conf |};
                              core_level := level |}]
            else cores in
          let cores :=
            if Console conf
            then cores ++ [{| core_enc := NewConsoleEncoder;
                              core_ws := Lock_Stdout;
                              core_level := level |}]
            else cores in
          (Ok {| tee := cores; AddCaller := true; AddCallerSkip := 1 |}, made)
      end
  end.

(** The levels [zapcore.ParseLevel] knows in lower case, and a file system
    that refuses every directory under [/proc]. *)
Definition sample_ParseLevel (s : string) : Result Z :=
  if String.eqb s "debug" then Ok (-1)%Z
  else if String.eqb s "info" || String.eqb s "" then Ok 0%Z
  else if String.eqb s "warn" then Ok 1%Z
  else if String.eqb s "error" then Ok 2%Z
  else Err (errors_New "unrecognized level").

Definition sample_World : World :=
  {| filepath_Dir := fun p => if String.prefix "/proc/" p then "/proc" else "/var/log/app";
     os_MkdirAll := fun dir _ =>
       if String.eqb dir "/proc" then Some (errors_New "mkdir /proc: permission denied")
       else None;
     zapcore_ParseLevel := sample_ParseLevel |}.

Definition sample_conf (level filename : string) (console : bool) : LogConfig :=
  {| Level := level; Filename := filename; MaxSize := 100; MaxAge := 30; MaxBackups := 30;
     Compress := true; LocalTime := true; Console := console |}.

End Logger.

(** ** Runs on concrete inputs *)

Example Listen_fresh :
  Listen linux (NewGracefulUpgrader linux) "tcp" ":8080" =
  (Done (Ok {| l_type := TCPListener; l_fd := 7; l_network := "tcp"; l_address := ":8080" |},
         tcp_upgrader),
   [EvNetListen "tcp" ":8080"]).
Proof. reflexivity. Qed.

Example Listen_inherited :
  trace (Listen (with_Environ linux ["GRACEFUL_RESTART=true"]) (NewGracefulUpgrader linux)
                "tcp" ":8080") =
  [EvLog InfoLevel "Inheriting listener from parent process"
         [zap_Int "pid" 4242; zap_Int "ppid" 1];
   EvFileListener (os_NewFile 3 "");
   EvFileClose (os_NewFile 3 "")].
Proof. reflexivity. Qed.

Example Reload_ok :
  Reload linux tcp_upgrader 0 =
  (Done None,
   [EvLog InfoLevel "Starting graceful reload" [zap_Int "old_pid" 4242];
    EvListenerFile {| l_type := TCPListener; l_fd := 7; l_network := "tcp"; l_address := ":8080" |};
    EvStartProcess "/srv/app" ["/srv/app"; "-config"; "app.yaml"]
      {| Env := ["PATH=/usr/bin"; "HOME=/root"; "GRACEFUL_RESTART=true"];
         Files := [os_Stdin; os_Stdout; os_Stderr; {| f_fd := 9; f_name := "tcp::8080" |}] |};
    EvLog InfoLevel "Started new process" [zap_Int "new_pid" 4243];
    EvFileClose {| f_fd := 9; f_name := "tcp::8080" |}]).
Proof. reflexivity. Qed.

Example GracefulServe_two_callbacks :
  GracefulServe
    (RegisterOnShutdown (RegisterOnShutdown (new_Engine quick_server) flush_metrics) close_database)
    quick_server (RecvQuit SIGTERM) =
  (Done None,
   [EvNotify [SIGINT; SIGTERM; SIGQUIT];
    EvGoListenAndServe;
    EvLog InfoLevel "Received shutdown signal, starting graceful shutdown..." [];
    EvCallback 1;
    EvCallback 2;
    EvShutdown (context_WithTimeout 30000000000%Z);
    EvLog InfoLevel "Server has been shutdown successfully" [];
    EvCancel (context_WithTimeout 30000000000%Z)]).
Proof. reflexivity. Qed.

Example WaitForSignal_reload_after_failure :
  state_of (WaitForSignal (with_failing_spawns linux 1) tcp_upgrader quick_server [SIGHUP]) = Running /\
  state_of (WaitForSignal (with_failing_spawns linux 1) tcp_upgrader quick_server [SIGHUP; SIGHUP])
    = Exited.
Proof. split; reflexivity. Qed.

(** ** Laws of the trace monad *)

Section Monad_laws.
Context {A B : Type}.

Lemma outcome_bind (m : M A) (k : A -> M B) :
  outcome (bind m k) =
  match outcome m with
  | Done a => outcome (k a)
  | Panic msg => Panic msg
  end.
Proof.
  destruct m as [[a | msg] t]; simpl; [destruct (k a) | ]; reflexivity.
Qed.

Lemma trace_bind (m : M A) (k : A -> M B) :
  trace (bind m k) =
  trace m ++ match outcome m with
             | Done a => trace (k a)
             | Panic _ => []
             end.
Proof.
  destruct m as [[a | msg] t]; simpl.
  - destruct (k a); reflexivity.
  - symmetry; apply app_nil_r.
Qed.

Lemma outcome_defer (d : Event) (body : M A) : outcome (defer d body) = outcome body.
Proof. destruct body; reflexivity. Qed.

Lemma trace_defer (d : Event) (body : M A) : trace (defer d body) = trace body ++ [d].
Proof. destruct body; reflexivity. Qed.
End Monad_laws.

(** ** Trace projections and concatenation *)

Lemma callbacks_of_app (t u : Trace) :
  callbacks_of (t ++ u) = callbacks_of t ++ callbacks_of u.
Proof.
  induction t as [| e t IH]; simpl; [reflexivity |].
  destruct e; simpl; rewrite IH; reflexivity.
Qed.

Lemma shutdowns_of_app (t u : Trace) :
  shutdowns_of (t ++ u) = shutdowns_of t ++ shutdowns_of u.
Proof.
  induction t as [| e t IH]; simpl; [reflexivity |].
  destruct e; simpl; rewrite IH; reflexivity.
Qed.

Lemma spawns_of_app (t u : Trace) :
  spawns_of (t ++ u) = spawns_of t ++ spawns_of u.
Proof.
  induction t as [| e t IH]; simpl; [reflexivity |].
  destruct e; simpl; rewrite IH; reflexivity.
Qed.

Create Rewrite HintDb go.
#[local] Hint Rewrite @outcome_bind @trace_bind @outcome_defer @trace_defer
  callbacks_of_app shutdowns_of_app spawns_of_app : go.

(** ** The shutdown callback registry *)

Lemma RegisterOnShutdown_appends (engine : Engine) (f : Callback) :
  shutdownCallbacks (RegisterOnShutdown engine f) = shutdownCallbacks engine ++ [f].
Proof. reflexivity. Qed.

(** The loop over the registry touches nothing but the callbacks, and what
    it has invoked when it stops is a prefix of the registry. *)
Lemma range_call_shutdowns (cbs : list Callback) :
  shutdowns_of (trace (range_call cbs)) = [].
Proof.
  induction cbs as [| cb rest IH]; simpl; [reflexivity |].
  unfold call. autorewrite with go. simpl.
  destruct (cb_panics cb); simpl; [reflexivity | exact IH].
Qed.

Lemma range_call_done (cbs : list Callback) :
  outcome (range_call cbs) = Done tt ->
  callbacks_of (trace (range_call cbs)) = map cb_id cbs.
Proof.
  induction cbs as [| cb rest IH]; simpl; [reflexivity |].
  unfold call. autorewrite with go. simpl.
  destruct (cb_panics cb); simpl; [discriminate |].
  intros H. rewrite IH by exact H. reflexivity.
Qed.

Lemma range_call_outcome (cbs : list Callback) :
  outcome (range_call cbs) = Done tt \/ exists msg, outcome (range_call cbs) = Panic msg.
Proof.
  destruct (outcome (range_call cbs)) as [[] | msg]; [left | right; exists msg]; reflexivity.
Qed.

Lemma range_call_no_panics (cbs : list Callback) :
  forallb (fun cb => negb (cb_panics cb)) cbs = true ->
  outcome (range_call cbs) = Done tt.
Proof.
  induction cbs as [| cb rest IH]; simpl; [reflexivity |].
  unfold call. autorewrite with go. simpl.
  destruct (cb_panics cb); simpl; [discriminate | exact IH].
Qed.

(** ** GracefulServe *)

Lemma ctx30_is_30_seconds : ctx_timeout ctx30 = 30000000000%Z.
Proof. reflexivity. Qed.

(** The part of [GracefulServe] under [defer cancel()]. *)
Lemma GracefulServe_quit_trace (engine : Engine) (srv : Server) (sig : Signal) :
  outcome (range_call (shutdownCallbacks engine)) = Done tt ->
  exists after,
    trace (GracefulServe engine srv (RecvQuit sig)) =
      ([EvNotify [SIGINT; SIGTERM; SIGQUIT]; EvGoListenAndServe;
        EvLog InfoLevel "Received shutdown signal, starting graceful shutdown..." []]
       ++ trace (range_call (shutdownCallbacks engine)))
      ++ EvShutdown ctx30 :: after /\
    callbacks_of after = [] /\
    shutdowns_of after = [] /\
    outcome (GracefulServe engine srv (RecvQuit sig)) =
      Done (match srv_Shutdown srv ctx30 with
            | Some err => Some (fmt_Errorf "server shutdown error" err)
            | None => None
            end).
Proof.
  intros Hdone.
  unfold GracefulServe, executeShutdownCallbacks, log.
  fold ctx30.
  autorewrite with go. simpl. autorewrite with go. rewrite Hdone. simpl.
  destruct (srv_Shutdown srv ctx30) as [err |]; simpl;
    eexists; (split; [rewrite <- app_assoc; simpl; reflexivity | auto]).
Qed.

Lemma GracefulServe_panicking_callback (engine : Engine) (srv : Server) (sig : Signal) :
  outcome (range_call (shutdownCallbacks engine)) <> Done tt ->
  shutdowns_of (trace (GracefulServe engine srv (RecvQuit sig))) = [].
Proof.
  intros Hpanic.
  destruct (range_call_outcome (shutdownCallbacks engine)) as [H | [msg H]]; [contradiction |].
  unfold GracefulServe, executeShutdownCallbacks, log.
  autorewrite with go. simpl. autorewrite with go. rewrite H. simpl.
  rewrite range_call_shutdowns. reflexivity.
Qed.

(** C7.  In [GracefulServe], whenever the server's [Shutdown] is reached and
    gives up with an error (the drain ran past its deadline), the call
    returns that error wrapped as "server shutdown error", and before
    [Shutdown] was requested every registered callback had been invoked,
    once each, in registration order; none runs afterwards. *)
Theorem GracefulServe_timeout_after_callbacks :
  forall (engine : Engine) (srv : Server) (sig : Signal) (err : error),
    shutdowns_of (trace (GracefulServe engine srv (RecvQuit sig))) <> [] ->
    srv_Shutdown srv ctx30 = Some err ->
    outcome (GracefulServe engine srv (RecvQuit sig)) =
      Done (Some (fmt_Errorf "server shutdown error" err)) /\
    exists before after,
      trace (GracefulServe engine srv (RecvQuit sig)) = before ++ EvShutdown ctx30 :: after /\
      callbacks_of before = map cb_id (shutdownCallbacks engine) /\
      shutdowns_of before = [] /\
      callbacks_of after = [] /\
      shutdowns_of after = [].
Proof.
  intros engine srv sig err Hcalled Herr.
  destruct (range_call_outcome (shutdownCallbacks engine)) as [Hdone | [msg Hp]].
  - destruct (GracefulServe_quit_trace engine srv sig Hdone) as (after & Ht & Hc & Hs & Ho).
    rewrite Herr in Ho. split; [exact Ho |].
    eexists; exists after. split; [exact Ht |].
    autorewrite with go. simpl.
    rewrite (range_call_done _ Hdone), range_call_shutdowns. auto.
  - exfalso. apply Hcalled. apply GracefulServe_panicking_callback.
    rewrite Hp. discriminate.
Qed.

Lemma GracefulServe_timeout_after_callbacks_witness :
  outcome (GracefulServe (RegisterOnShutdown (RegisterOnShutdown (new_Engine stuck_server)
                                                flush_metrics) close_database)
                         stuck_server (RecvQuit SIGTERM)) =
    Done (Some (fmt_Errorf "server shutdown error" context_DeadlineExceeded)) /\
  exists before after,
    trace (GracefulServe (RegisterOnShutdown (RegisterOnShutdown (new_Engine stuck_server)
                                                flush_metrics) close_database)
                         stuck_server (RecvQuit SIGTERM)) = before ++ EvShutdown ctx30 :: after /\
    callbacks_of before = [1; 2] /\
    shutdowns_of before = [] /\
    callbacks_of after = [] /\
    shutdowns_of after = [].
Proof.
  apply (GracefulServe_timeout_after_callbacks
           (RegisterOnShutdown (RegisterOnShutdown (new_Engine stuck_server) flush_metrics)
                               close_database)
           stuck_server SIGTERM context_DeadlineExceeded).
  - vm_compute. discriminate.
  - reflexivity.
Defined.

(** ** Listener acquisition *)

Lemma Listen_marker_true (os : OS) (g : GracefulUpgrader) (network address : string) :
  os_Getenv os GRACEFUL_RESTART = "true" ->
  Listen os g network address =
    match net_FileListener os (os_NewFile 3 "") with
    | Err err =>
        (Done (Err (fmt_Errorf "failed to inherit listener" err), g),
         [EvLog InfoLevel "Inheriting listener from parent process"
                [zap_Int "pid" (pid g); zap_Int "ppid" (ppid g)];
          EvFileListener (os_NewFile 3 "")])
    | Ok l =>
        (Done (Ok l, set_ln g l),
         [EvLog InfoLevel "Inheriting listener from parent process"
                [zap_Int "pid" (pid g); zap_Int "ppid" (ppid g)];
          EvFileListener (os_NewFile 3 "");
          EvFileClose (os_NewFile 3 "")])
    end.
Proof.
  intros Henv. unfold Listen. rewrite Henv. simpl.
  destruct (net_FileListener os (os_NewFile 3 "")); reflexivity.
Qed.

Lemma Listen_marker_other (os : OS) (g : GracefulUpgrader) (network address : string) :
  os_Getenv os GRACEFUL_RESTART <> "true" ->
  Listen os g network address =
    match net_Listen os network address with
    | Err err =>
        (Done (Err (fmt_Errorf "failed to create listener" err), g),
         [EvNetListen network address])
    | Ok l => (Done (Ok l, set_ln g l), [EvNetListen network address])
    end.
Proof.
  intros Henv. unfold Listen.
  destruct (String.eqb_spec (os_Getenv os GRACEFUL_RESTART) "true") as [Heq | _];
    [contradiction |].
  simpl. destruct (net_Listen os network address); reflexivity.
Qed.

(** Neither path of [Listen] reaches the server or the callbacks. *)
Lemma Listen_quiet (os : OS) (g : GracefulUpgrader) (network address : string) :
  callbacks_of (trace (Listen os g network address)) = [] /\
  shutdowns_of (trace (Listen os g network address)) = [].
Proof.
  unfold Listen.
  destruct (String.eqb (os_Getenv os GRACEFUL_RESTART) "true"); simpl.
  - destruct (net_FileListener os (os_NewFile 3 "")); simpl; auto.
  - destruct (net_Listen os network address); simpl; auto.
Qed.

(** C3, as the code has it.  [Listen] takes the inheritance path exactly
    when [GRACEFUL_RESTART] has the value ["true"]: then it wraps descriptor 3
    and binds nothing; with any other value, or without the variable, it
    wraps nothing and binds afresh. *)
Theorem Listen_inherits_iff_marker_is_true :
  forall (os : OS) (g : GracefulUpgrader) (network address : string),
    (os_Getenv os GRACEFUL_RESTART = "true" ->
     wraps_of (trace (Listen os g network address)) = [3%Z] /\
     binds_of (trace (Listen os g network address)) = []) /\
    (os_Getenv os GRACEFUL_RESTART <> "true" ->
     wraps_of (trace (Listen os g network address)) = [] /\
     binds_of (trace (Listen os g network address)) = [(network, address)]).
Proof.
  intros os g network address. split; intros Henv.
  - rewrite (Listen_marker_true os g network address Henv).
    destruct (net_FileListener os (os_NewFile 3 "")); split; reflexivity.
  - rewrite (Listen_marker_other os g network address Henv).
    destruct (net_Listen os network address); split; reflexivity.
Qed.

Lemma Listen_inherits_iff_marker_is_true_witness :
  (wraps_of (trace (Listen (with_Environ linux ["HOME=/root"; "GRACEFUL_RESTART=true"])
                           (NewGracefulUpgrader linux) "tcp" ":8080")) = [3%Z] /\
   binds_of (trace (Listen (with_Environ linux ["HOME=/root"; "GRACEFUL_RESTART=true"])
                           (NewGracefulUpgrader linux) "tcp" ":8080")) = []) /\
  (wraps_of (trace (Listen linux (NewGracefulUpgrader linux) "tcp" ":8080")) = [] /\
   binds_of (trace (Listen linux (NewGracefulUpgrader linux) "tcp" ":8080"))
     = [("tcp", ":8080")]).
Proof.
  split.
  - apply (proj1 (Listen_inherits_iff_marker_is_true
                    (with_Environ linux ["HOME=/root"; "GRACEFUL_RESTART=true"])
                    (NewGracefulUpgrader linux) "tcp" ":8080")).
    reflexivity.
  - apply (proj2 (Listen_inherits_iff_marker_is_true
                    linux (NewGracefulUpgrader linux) "tcp" ":8080")).
    vm_compute. discriminate.
Defined.

(** C3 as the spec words it fails: with [GRACEFUL_RESTART=1] the variable is
    present, yet [Listen] wraps no descriptor and binds afresh. *)
Lemma Listen_marker_present_yet_fresh_bind :
  marker_present (with_Environ linux ["HOME=/root"; "GRACEFUL_RESTART=1"]) /\
  wraps_of (trace (Listen (with_Environ linux ["HOME=/root"; "GRACEFUL_RESTART=1"])
                          (NewGracefulUpgrader linux) "tcp" ":8080")) = [] /\
  binds_of (trace (Listen (with_Environ linux ["HOME=/root"; "GRACEFUL_RESTART=1"])
                          (NewGracefulUpgrader linux) "tcp" ":8080")) = [("tcp", ":8080")].
Proof.
  split; [| split]; [| reflexivity | reflexivity].
  unfold marker_present. vm_compute. discriminate.
Qed.

(** C4, as the code has it.  When [GRACEFUL_RESTART] has the value "true"
    and descriptor 3 cannot be wrapped into a listener, [Listen] has tried
    that wrapping and nothing else: it returns the cause wrapped as "failed
    to inherit listener" (an AcquireError), leaves the upgrader as it was,
    and performs no bind. *)
Theorem Listen_inherit_failure_is_fatal :
  forall (os : OS) (g : GracefulUpgrader) (network address : string) (err : error),
    os_Getenv os GRACEFUL_RESTART = "true" ->
    net_FileListener os (os_NewFile 3 "") = Err err ->
    outcome (Listen os g network address) =
      Done (Err (fmt_Errorf "failed to inherit listener" err), g) /\
    AcquireError (fmt_Errorf "failed to inherit listener" err) /\
    wraps_of (trace (Listen os g network address)) = [3%Z] /\
    binds_of (trace (Listen os g network address)) = [].
Proof.
  intros os g network address err Henv Hfail.
  rewrite (Listen_marker_true os g network address Henv), Hfail.
  split; [reflexivity | split; [| split; reflexivity]].
  exists err. left. reflexivity.
Qed.

Lemma Listen_inherit_failure_is_fatal_witness :
  outcome (Listen (with_bad_fd3 (with_Environ linux ["GRACEFUL_RESTART=true"]))
                  (NewGracefulUpgrader linux) "tcp" ":8080") =
    Done (Err (fmt_Errorf "failed to inherit listener"
                          (errors_New "file file+net : bad file descriptor")),
          NewGracefulUpgrader linux) /\
  AcquireError (fmt_Errorf "failed to inherit listener"
                           (errors_New "file file+net : bad file descriptor")) /\
  wraps_of (trace (Listen (with_bad_fd3 (with_Environ linux ["GRACEFUL_RESTART=true"]))
                          (NewGracefulUpgrader linux) "tcp" ":8080")) = [3%Z] /\
  binds_of (trace (Listen (with_bad_fd3 (with_Environ linux ["GRACEFUL_RESTART=true"]))
                          (NewGracefulUpgrader linux) "tcp" ":8080")) = [].
Proof.
  apply (Listen_inherit_failure_is_fatal
           (with_bad_fd3 (with_Environ linux ["GRACEFUL_RESTART=true"]))
           (NewGracefulUpgrader linux) "tcp" ":8080"
           (errors_New "file file+net : bad file descriptor")).
  - reflexivity.
  - reflexivity.
Defined.

(** C4 as the spec words it fails: with [GRACEFUL_RESTART=yes] the marker
    is present and descriptor 3 cannot be wrapped, yet [Listen] returns no
    error: it binds afresh and hands back, and records, the new listener. *)
Lemma Listen_marker_present_bad_descriptor_binds :
  marker_present (with_bad_fd3 (with_Environ linux ["GRACEFUL_RESTART=yes"])) /\
  net_FileListener (with_bad_fd3 (with_Environ linux ["GRACEFUL_RESTART=yes"])) (os_NewFile 3 "") =
    Err (errors_New "file file+net : bad file descriptor") /\
  Listen (with_bad_fd3 (with_Environ linux ["GRACEFUL_RESTART=yes"]))
         (NewGracefulUpgrader linux) "tcp" ":8080" =
    (Done (Ok {| l_type := TCPListener; l_fd := 7; l_network := "tcp"; l_address := ":8080" |},
           tcp_upgrader),
     [EvNetListen "tcp" ":8080"]) /\
  binds_of (trace (Listen (with_bad_fd3 (with_Environ linux ["GRACEFUL_RESTART=yes"]))
                          (NewGracefulUpgrader linux) "tcp" ":8080")) = [("tcp", ":8080")].
Proof.
  split; [| split; [| split]]; [| reflexivity | reflexivity | reflexivity].
  unfold marker_present. vm_compute. discriminate.
Qed.

(** ** The process spawner *)

(** [Reload] reaches neither the server nor the callbacks, and starts at
    most one process. *)
Lemma Reload_quiet (os : OS) (g : GracefulUpgrader) (n : nat) :
  callbacks_of (trace (Reload os g n)) = [] /\
  shutdowns_of (trace (Reload os g n)) = [] /\
  length (spawns_of (trace (Reload os g n))) <= 1.
Proof.
  unfold Reload, assert_TCPListener.
  destruct (os_Executable os n) as [executable | e]; simpl; [| auto].
  destruct (ln g) as [l |]; simpl; [| auto].
  destruct (l_type l); simpl; [| auto].
  destruct (TCPListener_File os n l) as [listenerFile | e]; simpl; [| auto].
  destruct (os_StartProcess os n executable (os_Args os) _); simpl; auto.
Qed.

(** The unchecked assertion: a listener that is not a [*net.TCPListener]
    makes [Reload] panic as soon as the executable's path is known. *)
Lemma Reload_not_TCP_panics (os : OS) (g : GracefulUpgrader) (n : nat)
    (l : Listener) (executable : string) :
  os_Executable os n = Ok executable ->
  ln g = Some l ->
  l_type l = UnixListener ->
  Reload os g n =
    (Panic "interface conversion: net.Listener is *net.UnixListener, not *net.TCPListener",
     [EvLog InfoLevel "Starting graceful reload" [zap_Int "old_pid" (pid g)]]).
Proof.
  intros Hexe Hln Htype. unfold Reload, assert_TCPListener.
  rewrite Hexe, Hln, Htype. reflexivity.
Qed.

(** Every error [Reload] returns is of the spec's SpawnError class. *)
Lemma Reload_error_is_SpawnError (os : OS) (g : GracefulUpgrader) (n : nat) (err : error) :
  outcome (Reload os g n) = Done (Some err) -> SpawnError err.
Proof.
  unfold Reload, assert_TCPListener.
  destruct (os_Executable os n) as [executable | e]; simpl.
  2:{ intros H; injection H as <-. exists e. auto. }
  destruct (ln g) as [l |]; simpl; [| discriminate].
  destruct (l_type l); simpl; [| discriminate].
  destruct (TCPListener_File os n l) as [listenerFile | e]; simpl.
  2:{ intros H; injection H as <-. exists e. auto. }
  destruct (os_StartProcess os n executable (os_Args os) _) as [p | e]; simpl.
  - discriminate.
  - intros H; injection H as <-. exists e. auto.
Qed.

(** A child started with the parent's environment plus the marker reads the
    marker as ["true"], unless the parent's environment already carried the
    variable: the first entry wins. *)
Lemma LookupEnv_app (envs more : list string) (key : string) :
  LookupEnv (envs ++ more) key =
  match LookupEnv envs key with
  | Some v => Some v
  | None => LookupEnv more key
  end.
Proof.
  induction envs as [| s rest IH]; simpl; [reflexivity |].
  destruct (cut_eq s) as [[k v] |]; [| exact IH].
  destruct (String.eqb k key); [reflexivity | exact IH].
Qed.

Lemma child_reads_marker (envs : list string) :
  LookupEnv envs GRACEFUL_RESTART = None ->
  Getenv (envs ++ ["GRACEFUL_RESTART=true"]) GRACEFUL_RESTART = "true".
Proof.
  intros Hnone. unfold Getenv. simpl.
  change (String "G" "RACEFUL_RESTART") with GRACEFUL_RESTART.
  rewrite LookupEnv_app, Hnone. reflexivity.
Qed.

(** C5.  Whenever [Reload] returns nil, it has made exactly one
    [os.StartProcess] call, for the running executable and argument vector,
    with [Env] the parent's environment followed by [GRACEFUL_RESTART=true]
    and [Files] the list stdin, stdout, stderr, duplicated listener
    descriptor, in this order (slots 0, 1, 2, 3 of the child). *)
Theorem Reload_spawn_parameters :
  forall (os : OS) (g : GracefulUpgrader) (n : nat),
    outcome (Reload os g n) = Done None ->
    exists (executable : string) (tcp : Listener) (listenerFile : File),
      os_Executable os n = Ok executable /\
      ln g = Some tcp /\
      TCPListener_File os n tcp = Ok listenerFile /\
      spawns_of (trace (Reload os g n)) =
        [(executable, os_Args os,
          {| Env := os_Environ os ++ ["GRACEFUL_RESTART=true"];
             Files := [os_Stdin; os_Stdout; os_Stderr; listenerFile] |})] /\
      map f_fd [os_Stdin; os_Stdout; os_Stderr] = [0; 1; 2]%Z.
Proof.
  intros os g n. unfold Reload, assert_TCPListener.
  destruct (os_Executable os n) as [executable | e] eqn:Hexe; simpl; [| discriminate].
  destruct (ln g) as [l |] eqn:Hln; simpl; [| discriminate].
  destruct (l_type l) eqn:Htype; simpl; [| discriminate].
  destruct (TCPListener_File os n l) as [listenerFile | e] eqn:Hfile; simpl; [| discriminate].
  destruct (os_StartProcess os n executable (os_Args os) _) as [p | e]; simpl;
    [| discriminate].
  intros _. exists executable, l, listenerFile. repeat split; assumption || reflexivity.
Qed.

Lemma Reload_spawn_parameters_witness :
  exists (executable : string) (tcp : Listener) (listenerFile : File),
    os_Executable linux 0 = Ok executable /\
    ln tcp_upgrader = Some tcp /\
    TCPListener_File linux 0 tcp = Ok listenerFile /\
    spawns_of (trace (Reload linux tcp_upgrader 0)) =
      [(executable, os_Args linux,
        {| Env := os_Environ linux ++ ["GRACEFUL_RESTART=true"];
           Files := [os_Stdin; os_Stdout; os_Stderr; listenerFile] |})] /\
    map f_fd [os_Stdin; os_Stdout; os_Stderr] = [0; 1; 2]%Z.
Proof.
  apply (Reload_spawn_parameters linux tcp_upgrader 0).
  reflexivity.
Defined.

(** C2, on the code.  After [Listen("unix", ...)] the active listener is a
    [*net.UnixListener]; [Reload] then returns no error at all: the type
    assertion panics, before any process is started. *)
Theorem Reload_unix_listener_panics :
  exists (l : Listener) (g : GracefulUpgrader),
    outcome (Listen linux (NewGracefulUpgrader linux) "unix" "/run/ginx.sock") = Done (Ok l, g) /\
    ln g = Some l /\
    l_type l = UnixListener /\
    outcome (Reload linux g 0) =
      Panic "interface conversion: net.Listener is *net.UnixListener, not *net.TCPListener" /\
    spawns_of (trace (Reload linux g 0)) = [] /\
    state_of (WaitForSignal linux g quick_server [SIGHUP]) = Crashed.
Proof.
  eexists; eexists. repeat split; reflexivity.
Qed.

(** ** The signal loop *)

Ltac fold_ctx30 := change (context_WithTimeout 30000000000%Z) with ctx30 in *.

(** One drain, as both arms of the loop perform it. *)
Lemma WaitForSignal_loop_terminate (os : OS) (g : GracefulUpgrader) (srv : Server)
    (n : nat) (sig : Signal) (rest : list Signal) :
  sig <> SIGHUP ->
  sig = SIGTERM \/ sig = SIGINT ->
  outcome (WaitForSignal_loop os g srv n (sig :: rest)) = Done (Returned (srv_Shutdown srv ctx30)) /\
  shutdowns_of (trace (WaitForSignal_loop os g srv n (sig :: rest))) = [ctx30] /\
  callbacks_of (trace (WaitForSignal_loop os g srv n (sig :: rest))) = [].
Proof.
  intros Hhup Hterm. simpl.
  destruct (Z.eqb_spec sig SIGHUP) as [? | _]; [contradiction |].
  replace (Z.eqb sig SIGTERM || Z.eqb sig SIGINT) with true
    by (destruct Hterm as [-> | ->]; reflexivity).
  fold_ctx30.
  destruct (srv_Shutdown srv ctx30); simpl; auto.
Qed.

Lemma WaitForSignal_loop_ignored (os : OS) (g : GracefulUpgrader) (srv : Server)
    (n : nat) (sig : Signal) (rest : list Signal) :
  sig <> SIGHUP -> sig <> SIGTERM -> sig <> SIGINT ->
  WaitForSignal_loop os g srv n (sig :: rest) = WaitForSignal_loop os g srv n rest.
Proof.
  intros H1 H2 H3. simpl.
  destruct (Z.eqb_spec sig SIGHUP); [contradiction |].
  destruct (Z.eqb_spec sig SIGTERM); [contradiction |].
  destruct (Z.eqb_spec sig SIGINT); [contradiction |].
  reflexivity.
Qed.

(** A reload signal, by what [Reload] does. *)
Lemma WaitForSignal_loop_reload (os : OS) (g : GracefulUpgrader) (srv : Server)
    (n : nat) (rest : list Signal) :
  WaitForSignal_loop os g srv n (SIGHUP :: rest) =
  match outcome (Reload os g n) with
  | Panic msg => (Panic msg, trace (Reload os g n))
  | Done (Some err) =>
      (outcome (WaitForSignal_loop os g srv (S n) rest),
       trace (Reload os g n)
         ++ EvLog ErrorLevel "Failed to reload" [zap_Error err]
         :: trace (WaitForSignal_loop os g srv (S n) rest))
  | Done None =>
      (Done (Returned (srv_Shutdown srv ctx30)),
       trace (Reload os g n)
         ++ [EvShutdown ctx30;
             match srv_Shutdown srv ctx30 with
             | Some err => EvLog ErrorLevel "Failed to shutdown" [zap_Error err]
             | None => EvLog InfoLevel "Graceful reload completed" [zap_Int "pid" (pid g)]
             end;
             EvCancel ctx30])
  end.
Proof.
  simpl. fold_ctx30.
  destruct (Reload os g n) as [[[err |] | msg] t]; simpl.
  - destruct (WaitForSignal_loop os g srv (S n) rest); reflexivity.
  - destruct (srv_Shutdown srv ctx30); reflexivity.
  - reflexivity.
Qed.

Lemma signal_cases (sig : Signal) :
  sig = SIGHUP \/
  (sig <> SIGHUP /\ (sig = SIGTERM \/ sig = SIGINT)) \/
  (sig <> SIGHUP /\ sig <> SIGTERM /\ sig <> SIGINT).
Proof.
  destruct (Z.eq_dec sig SIGHUP); [auto |].
  destruct (Z.eq_dec sig SIGTERM); [auto |].
  destruct (Z.eq_dec sig SIGINT); auto.
Qed.

(** What holds of every run of the loop: no callback is ever invoked; and
    [Shutdown] is either not called, or called once, with the 30 second
    context, and then the loop has returned what [Shutdown] returned. *)
Lemma WaitForSignal_loop_drains (os : OS) (g : GracefulUpgrader) (srv : Server) :
  forall (signalChan : list Signal) (n : nat),
    callbacks_of (trace (WaitForSignal_loop os g srv n signalChan)) = [] /\
    (shutdowns_of (trace (WaitForSignal_loop os g srv n signalChan)) = [] \/
     shutdowns_of (trace (WaitForSignal_loop os g srv n signalChan)) = [ctx30] /\
     outcome (WaitForSignal_loop os g srv n signalChan) = Done (Returned (srv_Shutdown srv ctx30))).
Proof.
  induction signalChan as [| sig rest IH]; intros n.
  - simpl. auto.
  - destruct (signal_cases sig) as [-> | [[Hhup Hterm] | (H1 & H2 & H3)]].
    + rewrite WaitForSignal_loop_reload.
      destruct (Reload_quiet os g n) as (Hc & Hs & _).
      destruct (outcome (Reload os g n)) as [[err |] | msg]; simpl;
        autorewrite with go; rewrite Hc, Hs; simpl.
      * exact (IH (S n)).
      * split; [destruct (srv_Shutdown srv ctx30); reflexivity |].
        right. split; [destruct (srv_Shutdown srv ctx30) |]; reflexivity.
      * auto.
    + destruct (WaitForSignal_loop_terminate os g srv n sig rest Hhup Hterm) as (Ho & Hs & Hc).
      auto.
    + rewrite (WaitForSignal_loop_ignored os g srv n sig rest H1 H2 H3). exact (IH n).
Qed.

Lemma WaitForSignal_drains (os : OS) (g : GracefulUpgrader) (srv : Server)
    (signalChan : list Signal) :
  callbacks_of (trace (WaitForSignal os g srv signalChan)) = [] /\
  (shutdowns_of (trace (WaitForSignal os g srv signalChan)) = [] \/
   shutdowns_of (trace (WaitForSignal os g srv signalChan)) = [ctx30] /\
   outcome (WaitForSignal os g srv signalChan) = Done (Returned (srv_Shutdown srv ctx30))).
Proof.
  unfold WaitForSignal. autorewrite with go. simpl.
  exact (WaitForSignal_loop_drains os g srv signalChan 0).
Qed.

(** [GracefulRun] never reaches the registry: whatever the signals, no
    callback is invoked. *)
Lemma GracefulRun_drains (os : OS) (e : Engine) (signalChan : list Signal) :
  callbacks_of (trace (GracefulRun os e signalChan)) = [] /\
  (shutdowns_of (trace (GracefulRun os e signalChan)) = [] \/
   shutdowns_of (trace (GracefulRun os e signalChan)) = [ctx30] /\
   outcome (GracefulRun os e signalChan) = Done (Returned (srv_Shutdown (server e) ctx30))).
Proof.
  unfold GracefulRun. autorewrite with go.
  destruct (Listen_quiet os (NewGracefulUpgrader os) "tcp" (port_address (Port (options e))))
    as [Hc Hs].
  rewrite Hc, Hs. simpl.
  destruct (outcome (Listen os (NewGracefulUpgrader os) "tcp" (port_address (Port (options e)))))
    as [[[l | err] g'] | msg]; simpl; auto.
  pose proof (WaitForSignal_drains os g' (server e) signalChan) as H.
  destruct (WaitForSignal os g' (server e) signalChan) as [o t]. exact H.
Qed.

Lemma GracefulServe_shutdowns (engine : Engine) (srv : Server) (sel : SelectCase) :
  shutdowns_of (trace (GracefulServe engine srv sel)) = [] \/
  shutdowns_of (trace (GracefulServe engine srv sel)) = [ctx30] /\
  outcome (GracefulServe engine srv sel) =
    Done (match srv_Shutdown srv ctx30 with
          | Some err => Some (fmt_Errorf "server shutdown error" err)
          | None => None
          end).
Proof.
  destruct sel as [sig | err]; [| left; reflexivity].
  destruct (range_call_outcome (shutdownCallbacks engine)) as [Hdone | [msg Hp]].
  - right.
    destruct (GracefulServe_quit_trace engine srv sig Hdone) as (after & Ht & _ & Hs & Ho).
    split; [| exact Ho].
    rewrite Ht. autorewrite with go. simpl. rewrite range_call_shutdowns, Hs. reflexivity.
  - left. apply GracefulServe_panicking_callback. rewrite Hp. discriminate.
Qed.

(** X24.  A reload signal whose [Reload] returns an error: the loop logs
    "Failed to reload" with that error and goes on, with the same upgrader
    and server, to the signals that follow; with no further signal it is
    Running, blocked on the channel.  Handling the signal has called no
    [Shutdown] and has tried to start at most one process. *)
Theorem failed_reload_keeps_running :
  forall (os : OS) (g : GracefulUpgrader) (srv : Server) (n : nat)
         (rest : list Signal) (err : error),
    outcome (Reload os g n) = Done (Some err) ->
    WaitForSignal_loop os g srv n (SIGHUP :: rest) =
      (outcome (WaitForSignal_loop os g srv (S n) rest),
       trace (Reload os g n)
         ++ EvLog ErrorLevel "Failed to reload" [zap_Error err]
         :: trace (WaitForSignal_loop os g srv (S n) rest)) /\
    state_of (WaitForSignal_loop os g srv n [SIGHUP]) = Running /\
    shutdowns_of (trace (WaitForSignal_loop os g srv n [SIGHUP])) = [] /\
    length (spawns_of (trace (WaitForSignal_loop os g srv n [SIGHUP]))) <= 1.
Proof.
  intros os g srv n rest err Hfail.
  destruct (Reload_quiet os g n) as (_ & Hs & Hsp).
  split; [| split; [| split]].
  - rewrite WaitForSignal_loop_reload, Hfail. reflexivity.
  - unfold state_of. rewrite WaitForSignal_loop_reload, Hfail. reflexivity.
  - rewrite WaitForSignal_loop_reload, Hfail. simpl.
    autorewrite with go. rewrite Hs. reflexivity.
  - rewrite WaitForSignal_loop_reload, Hfail. simpl.
    autorewrite with go. simpl. rewrite app_nil_r. exact Hsp.
Qed.

Lemma failed_reload_keeps_running_witness :
  WaitForSignal_loop (with_failing_spawns linux 1) tcp_upgrader quick_server 0 [SIGHUP; SIGTERM] =
    (outcome (WaitForSignal_loop (with_failing_spawns linux 1) tcp_upgrader quick_server 1
                                 [SIGTERM]),
     trace (Reload (with_failing_spawns linux 1) tcp_upgrader 0)
       ++ EvLog ErrorLevel "Failed to reload"
            [zap_Error (fmt_Errorf "failed to start new process"
                          (errors_New "fork/exec: resource temporarily unavailable"))]
       :: trace (WaitForSignal_loop (with_failing_spawns linux 1) tcp_upgrader quick_server 1
                                    [SIGTERM])) /\
  state_of (WaitForSignal_loop (with_failing_spawns linux 1) tcp_upgrader quick_server 0 [SIGHUP])
    = Running /\
  shutdowns_of (trace (WaitForSignal_loop (with_failing_spawns linux 1) tcp_upgrader
                                          quick_server 0 [SIGHUP])) = [] /\
  length (spawns_of (trace (WaitForSignal_loop (with_failing_spawns linux 1) tcp_upgrader
                                               quick_server 0 [SIGHUP]))) <= 1.
Proof.
  apply (failed_reload_keeps_running (with_failing_spawns linux 1) tcp_upgrader quick_server 0
           [SIGTERM]
           (fmt_Errorf "failed to start new process"
              (errors_New "fork/exec: resource temporarily unavailable"))).
  reflexivity.
Defined.

(** C6, on the code.  The upgrader holds the listener of
    [Listen("unix", ...)] and a reload signal arrives.  [Reload] fails on
    the unsupported listener, but by a panic: nothing is logged as an
    error, the loop is left and the signal after it is never read.  When
    the same reload fails with a returned error instead, the loop logs it
    and stays Running. *)
Theorem unsupported_listener_reload_crashes_loop :
  outcome (Listen linux (NewGracefulUpgrader linux) "unix" "/run/ginx.sock") =
    Done (Ok {| l_type := UnixListener; l_fd := 7; l_network := "unix";
                l_address := "/run/ginx.sock" |},
          unix_upgrader) /\
  WaitForSignal linux unix_upgrader quick_server [SIGHUP; SIGTERM] =
    (Panic "interface conversion: net.Listener is *net.UnixListener, not *net.TCPListener",
     [EvNotify [SIGHUP; SIGTERM; SIGINT];
      EvLog InfoLevel "Starting graceful reload" [zap_Int "old_pid" 4242]]) /\
  errors_logged (trace (WaitForSignal linux unix_upgrader quick_server [SIGHUP; SIGTERM])) = [] /\
  state_of (WaitForSignal linux unix_upgrader quick_server [SIGHUP; SIGTERM]) = Crashed /\
  errors_logged (trace (WaitForSignal (with_no_executable linux) unix_upgrader quick_server
                                      [SIGHUP])) = ["Failed to reload"] /\
  state_of (WaitForSignal (with_no_executable linux) unix_upgrader quick_server [SIGHUP]) = Running.
Proof.
  repeat split; reflexivity.
Qed.

(** The loop returns only through a drain. *)
Lemma WaitForSignal_loop_returned (os : OS) (g : GracefulUpgrader) (srv : Server) :
  forall (signalChan : list Signal) (n : nat) (r : option error),
    outcome (WaitForSignal_loop os g srv n signalChan) = Done (Returned r) ->
    shutdowns_of (trace (WaitForSignal_loop os g srv n signalChan)) = [ctx30] /\
    r = srv_Shutdown srv ctx30.
Proof.
  induction signalChan as [| sig rest IH]; intros n r Hret; [discriminate |].
  destruct (WaitForSignal_loop_drains os g srv (sig :: rest) n) as [_ [Hnone | [Hone Ho]]].
  - exfalso. revert Hret Hnone.
    destruct (signal_cases sig) as [-> | [[Hhup Hterm] | (H1 & H2 & H3)]].
    + rewrite WaitForSignal_loop_reload.
      destruct (Reload_quiet os g n) as (_ & Hs & _).
      destruct (outcome (Reload os g n)) as [[err |] | msg]; cbn [outcome trace fst snd];
        rewrite ?shutdowns_of_app, ?Hs; simpl.
      * intros Hret Hnone. destruct (IH (S n) r Hret) as [Hone _].
        rewrite Hone in Hnone. discriminate.
      * intros _ H. discriminate.
      * intros H. discriminate.
    + destruct (WaitForSignal_loop_terminate os g srv n sig rest Hhup Hterm) as (_ & Hs & _).
      rewrite Hs. intros _ H. discriminate.
    + rewrite (WaitForSignal_loop_ignored os g srv n sig rest H1 H2 H3).
      intros Hret Hnone. destruct (IH n r Hret) as [Hone _].
      rewrite Hone in Hnone. discriminate.
  - split; [exact Hone |]. rewrite Ho in Hret. injection Hret as <-. reflexivity.
Qed.

(** C8.  Every drain is given a context of 30 seconds, and [Shutdown] is
    called at most once in a run: in [GracefulServe], and in [WaitForSignal]
    on the terminate path as on the reload path.  The drain does take
    place: on a quit signal, once the callbacks have returned,
    [GracefulServe] calls [Shutdown] and returns what it returned, an error
    wrapped as "server shutdown error"; [WaitForSignal] calls it on SIGTERM
    or SIGINT and after a reload that succeeded, and returns in no other
    way than through that call.  When [Shutdown] gave up
    with an error, the run has returned that error to its caller, so the
    loop is left and the process goes on to exit. *)
Theorem drains_bounded_by_30_seconds :
  ctx_timeout ctx30 = (30 * 1000000000)%Z /\
  (forall (engine : Engine) (srv : Server) (sel : SelectCase),
      (shutdowns_of (trace (GracefulServe engine srv sel)) = [] \/
       shutdowns_of (trace (GracefulServe engine srv sel)) = [ctx30]) /\
      (forall err : error,
          shutdowns_of (trace (GracefulServe engine srv sel)) = [ctx30] ->
          srv_Shutdown srv ctx30 = Some err ->
          outcome (GracefulServe engine srv sel) =
            Done (Some (fmt_Errorf "server shutdown error" err)))) /\
  (forall (engine : Engine) (srv : Server) (sig : Signal),
      forallb (fun cb => negb (cb_panics cb)) (shutdownCallbacks engine) = true ->
      shutdowns_of (trace (GracefulServe engine srv (RecvQuit sig))) = [ctx30] /\
      outcome (GracefulServe engine srv (RecvQuit sig)) =
        Done (match srv_Shutdown srv ctx30 with
              | Some err => Some (fmt_Errorf "server shutdown error" err)
              | None => None
              end)) /\
  (forall (os : OS) (g : GracefulUpgrader) (srv : Server) (signalChan : list Signal),
      (shutdowns_of (trace (WaitForSignal os g srv signalChan)) = [] \/
       shutdowns_of (trace (WaitForSignal os g srv signalChan)) = [ctx30]) /\
      (forall err : error,
          shutdowns_of (trace (WaitForSignal os g srv signalChan)) = [ctx30] ->
          srv_Shutdown srv ctx30 = Some err ->
          outcome (WaitForSignal os g srv signalChan) = Done (Returned (Some err)) /\
          state_of (WaitForSignal os g srv signalChan) = Exited)) /\
  (forall (os : OS) (g : GracefulUpgrader) (srv : Server) (signalChan : list Signal)
          (r : option error),
      outcome (WaitForSignal os g srv signalChan) = Done (Returned r) ->
      shutdowns_of (trace (WaitForSignal os g srv signalChan)) = [ctx30] /\
      r = srv_Shutdown srv ctx30) /\
  (forall (os : OS) (g : GracefulUpgrader) (srv : Server) (sig : Signal) (rest : list Signal),
      sig = SIGTERM \/ sig = SIGINT ->
      shutdowns_of (trace (WaitForSignal os g srv (sig :: rest))) = [ctx30] /\
      outcome (WaitForSignal os g srv (sig :: rest)) = Done (Returned (srv_Shutdown srv ctx30))) /\
  (forall (os : OS) (g : GracefulUpgrader) (srv : Server) (rest : list Signal),
      outcome (Reload os g 0) = Done None ->
      shutdowns_of (trace (WaitForSignal os g srv (SIGHUP :: rest))) = [ctx30] /\
      outcome (WaitForSignal os g srv (SIGHUP :: rest)) =
        Done (Returned (srv_Shutdown srv ctx30))).
Proof.
  split; [reflexivity |]. split; [| split; [| split; [| split; [| split]]]].
  - intros engine srv sel.
    destruct (GracefulServe_shutdowns engine srv sel) as [Hnone | [Hone Ho]].
    + split; [left; exact Hnone |].
      intros err Hcalled _. rewrite Hnone in Hcalled. discriminate.
    + split; [right; exact Hone |].
      intros err _ Herr. rewrite Ho, Herr. reflexivity.
  - intros engine srv sig Hreturn.
    apply range_call_no_panics in Hreturn.
    destruct (GracefulServe_quit_trace engine srv sig Hreturn) as (after & Ht & _ & Hs & Ho).
    split; [| exact Ho].
    rewrite Ht. autorewrite with go. simpl. rewrite range_call_shutdowns, Hs. reflexivity.
  - intros os g srv signalChan.
    destruct (WaitForSignal_drains os g srv signalChan) as [_ [Hnone | [Hone Ho]]].
    + split; [left; exact Hnone |].
      intros err Hcalled _. rewrite Hnone in Hcalled. discriminate.
    + split; [right; exact Hone |].
      intros err _ Herr. unfold state_of. rewrite Ho, Herr. split; reflexivity.
  - intros os g srv signalChan r.
    pose proof (WaitForSignal_loop_returned os g srv signalChan 0 r) as Hloop.
    unfold WaitForSignal. revert Hloop.
    destruct (WaitForSignal_loop os g srv 0 signalChan) as [o t]. simpl.
    intros Hloop Hret. exact (Hloop Hret).
  - intros os g srv sig rest Hterm.
    assert (Hhup : sig <> SIGHUP) by (destruct Hterm as [-> | ->]; discriminate).
    destruct (WaitForSignal_loop_terminate os g srv 0 sig rest Hhup Hterm) as (Ho & Hs & _).
    unfold WaitForSignal. revert Ho Hs.
    destruct (WaitForSignal_loop os g srv 0 (sig :: rest)) as [o t]. simpl.
    intros -> ->. split; reflexivity.
  - intros os g srv rest Hok.
    destruct (Reload_quiet os g 0) as (_ & Hs & _).
    unfold WaitForSignal. autorewrite with go.
    cbn [outcome trace emit fst snd].
    rewrite WaitForSignal_loop_reload, Hok.
    cbn [trace snd fst]. autorewrite with go. rewrite Hs.
    split; [destruct (srv_Shutdown srv ctx30) |]; reflexivity.
Qed.

Lemma drains_bounded_by_30_seconds_witness :
  outcome (GracefulServe (engine_with_callbacks stuck_server) stuck_server (RecvQuit SIGINT)) =
    Done (Some (fmt_Errorf "server shutdown error" context_DeadlineExceeded)) /\
  (shutdowns_of (trace (GracefulServe (engine_with_callbacks stuck_server) stuck_server
                                      (RecvQuit SIGQUIT))) = [ctx30] /\
   outcome (GracefulServe (engine_with_callbacks stuck_server) stuck_server (RecvQuit SIGQUIT)) =
     Done (match srv_Shutdown stuck_server ctx30 with
           | Some err => Some (fmt_Errorf "server shutdown error" err)
           | None => None
           end)) /\
  (outcome (WaitForSignal linux tcp_upgrader stuck_server [SIGHUP]) =
     Done (Returned (Some context_DeadlineExceeded)) /\
   state_of (WaitForSignal linux tcp_upgrader stuck_server [SIGHUP]) = Exited) /\
  (shutdowns_of (trace (WaitForSignal (with_failing_spawns linux 1) tcp_upgrader stuck_server
                                      [SIGHUP; SIGQUIT; SIGINT])) = [ctx30] /\
   Some context_DeadlineExceeded = srv_Shutdown stuck_server ctx30) /\
  (shutdowns_of (trace (WaitForSignal linux tcp_upgrader stuck_server [SIGTERM; SIGHUP])) = [ctx30] /\
   outcome (WaitForSignal linux tcp_upgrader stuck_server [SIGTERM; SIGHUP]) =
     Done (Returned (srv_Shutdown stuck_server ctx30))) /\
  (shutdowns_of (trace (WaitForSignal linux tcp_upgrader stuck_server [SIGHUP; SIGHUP])) = [ctx30] /\
   outcome (WaitForSignal linux tcp_upgrader stuck_server [SIGHUP; SIGHUP]) =
     Done (Returned (srv_Shutdown stuck_server ctx30))).
Proof.
  destruct drains_bounded_by_30_seconds
    as (_ & Hserve & Hquit & Hwait & Hreturned & Hterm & Hreload).
  split; [| split; [| split; [| split; [| split]]]].
  - apply (proj2 (Hserve (engine_with_callbacks stuck_server) stuck_server (RecvQuit SIGINT))
             context_DeadlineExceeded); reflexivity.
  - apply (Hquit (engine_with_callbacks stuck_server) stuck_server SIGQUIT). reflexivity.
  - apply (proj2 (Hwait linux tcp_upgrader stuck_server [SIGHUP])
             context_DeadlineExceeded); reflexivity.
  - apply (Hreturned (with_failing_spawns linux 1) tcp_upgrader stuck_server
             [SIGHUP; SIGQUIT; SIGINT] (Some context_DeadlineExceeded)).
    reflexivity.
  - apply (Hterm linux tcp_upgrader stuck_server SIGTERM [SIGHUP]). left. reflexivity.
  - apply (Hreload linux tcp_upgrader stuck_server [SIGHUP]). reflexivity.
Defined.

(** C1, on the code.  Two callbacks are registered; [GracefulRun] is sent a
    terminate signal, or a reload signal whose spawn succeeds.  Either way
    the server is shut down and the run returns nil, and no callback has
    been invoked. *)
Theorem GracefulRun_skips_registered_callbacks :
  map cb_id (shutdownCallbacks (engine_with_callbacks quick_server)) = [1; 2] /\
  outcome (GracefulRun linux (engine_with_callbacks quick_server) [SIGTERM]) = Done (Returned None) /\
  shutdowns_of (trace (GracefulRun linux (engine_with_callbacks quick_server) [SIGTERM])) = [ctx30] /\
  callbacks_of (trace (GracefulRun linux (engine_with_callbacks quick_server) [SIGTERM])) = [] /\
  outcome (GracefulRun linux (engine_with_callbacks quick_server) [SIGHUP]) = Done (Returned None) /\
  shutdowns_of (trace (GracefulRun linux (engine_with_callbacks quick_server) [SIGHUP])) = [ctx30] /\
  callbacks_of (trace (GracefulRun linux (engine_with_callbacks quick_server) [SIGHUP])) = [] /\
  callbacks_of (trace (GracefulServe (engine_with_callbacks quick_server) quick_server
                                     (RecvQuit SIGTERM))) = [1; 2].
Proof.
  repeat split; reflexivity.
Qed.

(** ** More on the registry and [GracefulServe] *)

Lemma register_all_callbacks (cbs : list Callback) :
  forall engine : Engine,
    shutdownCallbacks (register_all engine cbs) = shutdownCallbacks engine ++ cbs.
Proof.
  unfold register_all.
  induction cbs as [| cb rest IH]; intros engine; simpl.
  - symmetry. apply app_nil_r.
  - rewrite IH. simpl. rewrite <- app_assoc. reflexivity.
Qed.

Lemma range_call_done_iff (cbs : list Callback) :
  outcome (range_call cbs) = Done tt <->
  forallb (fun cb => negb (cb_panics cb)) cbs = true.
Proof.
  split; [| apply range_call_no_panics].
  induction cbs as [| cb rest IH]; simpl; [reflexivity |].
  unfold call. autorewrite with go. simpl.
  destruct (cb_panics cb); simpl; [discriminate | exact IH].
Qed.

Lemma range_call_returns (cbs : list Callback) :
  forallb (fun cb => negb (cb_panics cb)) cbs = true ->
  range_call cbs = (Done tt, map EvCallback (map cb_id cbs)).
Proof.
  induction cbs as [| cb rest IH]; simpl; [reflexivity |].
  destruct (cb_panics cb) eqn:Hp; simpl; [discriminate |].
  intros H. unfold call. rewrite Hp, (IH H). reflexivity.
Qed.

Lemma range_call_stops_at_panic (before after : list Callback) (cb : Callback) :
  forallb (fun c => negb (cb_panics c)) before = true ->
  cb_panics cb = true ->
  range_call (before ++ cb :: after) =
    (Panic "callback panicked", map EvCallback (map cb_id before) ++ [EvCallback (cb_id cb)]).
Proof.
  intros Hbefore Hcb.
  induction before as [| c rest IH]; simpl.
  - unfold call. rewrite Hcb. reflexivity.
  - simpl in Hbefore. destruct (cb_panics c) eqn:Hc; simpl in Hbefore; [discriminate |].
    unfold call. rewrite Hc, (IH Hbefore). reflexivity.
Qed.

Lemma callbacks_of_callbacks (ids : list nat) : callbacks_of (map EvCallback ids) = ids.
Proof. induction ids as [| i rest IH]; simpl; [| rewrite IH]; reflexivity. Qed.

Lemma shutdowns_of_callbacks (ids : list nat) : shutdowns_of (map EvCallback ids) = [].
Proof. induction ids as [| i rest IH]; simpl; [reflexivity | exact IH]. Qed.

(** X1.  Callbacks registered one after the other on an engine, none of
    which panics, are invoked by [executeShutdownCallbacks] after the ones
    the engine already had, each once, in the order of registration. *)
Theorem registered_callbacks_run_in_order :
  forall (engine : Engine) (cbs : list Callback),
    forallb (fun cb => negb (cb_panics cb)) (shutdownCallbacks engine ++ cbs) = true ->
    executeShutdownCallbacks (register_all engine cbs) =
      (Done tt, map EvCallback (map cb_id (shutdownCallbacks engine) ++ map cb_id cbs)).
Proof.
  intros engine cbs Hok. unfold executeShutdownCallbacks.
  rewrite register_all_callbacks, (range_call_returns _ Hok), map_app. reflexivity.
Qed.

Lemma registered_callbacks_run_in_order_witness :
  executeShutdownCallbacks
    (register_all (engine_with_callbacks quick_server)
                  [{| cb_id := 8; cb_panics := false |}; {| cb_id := 5; cb_panics := false |}]) =
  (Done tt, [EvCallback 1; EvCallback 2; EvCallback 8; EvCallback 5]).
Proof.
  apply (registered_callbacks_run_in_order (engine_with_callbacks quick_server)
           [{| cb_id := 8; cb_panics := false |}; {| cb_id := 5; cb_panics := false |}]).
  reflexivity.
Defined.

(** X2.  A callback that panics ends [GracefulServe] there: the callbacks
    registered before it and itself have been invoked, those after it have
    not, the server's [Shutdown] is never called, the call panics, and the
    deferred [cancel] is the last thing that runs. *)
Theorem panicking_callback_aborts_drain :
  forall (engine : Engine) (srv : Server) (sig : Signal)
         (before after : list Callback) (cb : Callback),
    shutdownCallbacks engine = before ++ cb :: after ->
    forallb (fun c => negb (cb_panics c)) before = true ->
    cb_panics cb = true ->
    outcome (GracefulServe engine srv (RecvQuit sig)) = Panic "callback panicked" /\
    callbacks_of (trace (GracefulServe engine srv (RecvQuit sig))) =
      map cb_id before ++ [cb_id cb] /\
    shutdowns_of (trace (GracefulServe engine srv (RecvQuit sig))) = [] /\
    last (trace (GracefulServe engine srv (RecvQuit sig))) EvGoListenAndServe = EvCancel ctx30.
Proof.
  intros engine srv sig before after cb Hreg Hbefore Hcb.
  unfold GracefulServe, executeShutdownCallbacks, log. fold ctx30.
  rewrite Hreg, (range_call_stops_at_panic before after cb Hbefore Hcb).
  autorewrite with go. simpl. autorewrite with go. simpl.
  rewrite callbacks_of_callbacks, shutdowns_of_callbacks.
  repeat split.
  - rewrite !app_nil_r. reflexivity.
  - rewrite last_last. destruct (_ ++ [EvCancel ctx30]) eqn:H; [| reflexivity].
    apply app_eq_nil in H. destruct H as [_ H]. discriminate.
Qed.

Lemma panicking_callback_aborts_drain_witness :
  outcome (GracefulServe (register_all (new_Engine quick_server)
                                       [flush_metrics; failing_callback; close_database])
                         quick_server (RecvQuit SIGTERM)) = Panic "callback panicked" /\
  callbacks_of (trace (GracefulServe (register_all (new_Engine quick_server)
                                        [flush_metrics; failing_callback; close_database])
                                     quick_server (RecvQuit SIGTERM))) =
    map cb_id [flush_metrics] ++ [cb_id failing_callback] /\
  shutdowns_of (trace (GracefulServe (register_all (new_Engine quick_server)
                                        [flush_metrics; failing_callback; close_database])
                                     quick_server (RecvQuit SIGTERM))) = [] /\
  last (trace (GracefulServe (register_all (new_Engine quick_server)
                                [flush_metrics; failing_callback; close_database])
                             quick_server (RecvQuit SIGTERM))) EvGoListenAndServe = EvCancel ctx30.
Proof.
  apply (panicking_callback_aborts_drain
           (register_all (new_Engine quick_server)
                         [flush_metrics; failing_callback; close_database])
           quick_server SIGTERM [flush_metrics] [close_database] failing_callback);
    reflexivity.
Defined.

(** X3.  [GracefulServe] returns nil exactly when a quit signal came, every
    registered callback returned and the server's [Shutdown] returned nil.
    When instead the server's own error arrives first, the call returns it
    wrapped as "HTTP server error" and neither a callback nor [Shutdown] is
    reached. *)
Theorem GracefulServe_returns_nil_iff :
  forall (engine : Engine) (srv : Server),
    (forall sel : SelectCase,
        outcome (GracefulServe engine srv sel) = Done None <->
        (exists sig, sel = RecvQuit sig) /\
        forallb (fun cb => negb (cb_panics cb)) (shutdownCallbacks engine) = true /\
        srv_Shutdown srv ctx30 = None) /\
    (forall err : error,
        GracefulServe engine srv (RecvErr err) =
          (Done (Some (fmt_Errorf "HTTP server error" err)),
           [EvNotify [SIGINT; SIGTERM; SIGQUIT]; EvGoListenAndServe])).
Proof.
  intros engine srv. split; [| reflexivity].
  intros [sig | err].
  - destruct (range_call_outcome (shutdownCallbacks engine)) as [Hdone | [msg Hp]].
    + destruct (GracefulServe_quit_trace engine srv sig Hdone) as (after & _ & _ & _ & Ho).
      rewrite Ho. split.
      * intros H. split; [exists sig; reflexivity |].
        split; [apply range_call_done_iff; exact Hdone |].
        destruct (srv_Shutdown srv ctx30); [discriminate | reflexivity].
      * intros (_ & _ & Hnil). rewrite Hnil. reflexivity.
    + assert (Hout : exists m, outcome (GracefulServe engine srv (RecvQuit sig)) = Panic m).
      { exists msg. unfold GracefulServe, executeShutdownCallbacks, log.
        autorewrite with go. simpl. autorewrite with go. rewrite Hp. reflexivity. }
      destruct Hout as [m Hm]. rewrite Hm. split; [discriminate |].
      intros (_ & Hall & _). apply range_call_done_iff in Hall.
      rewrite Hall in Hp. discriminate.
  - split; [discriminate |]. intros ([sig Hsig] & _). discriminate.
Qed.

(** ** More on [Listen] and [Reload] *)

Lemma binds_of_app (t u : Trace) : binds_of (t ++ u) = binds_of t ++ binds_of u.
Proof.
  induction t as [| e t IH]; simpl; [reflexivity |].
  destruct e; simpl; rewrite IH; reflexivity.
Qed.

Lemma wraps_of_app (t u : Trace) : wraps_of (t ++ u) = wraps_of t ++ wraps_of u.
Proof.
  induction t as [| e t IH]; simpl; [reflexivity |].
  destruct e; simpl; rewrite IH; reflexivity.
Qed.

Lemma closes_of_app (t u : Trace) : closes_of (t ++ u) = closes_of t ++ closes_of u.
Proof.
  induction t as [| e t IH]; simpl; [reflexivity |].
  destruct e; simpl; rewrite IH; reflexivity.
Qed.

(** X4.  [Listen] never panics and has two ways to end: it returns a
    listener and has recorded exactly that listener in the upgrader, whose
    process identity is untouched; or it returns an AcquireError and leaves
    the upgrader as it was. *)
Theorem Listen_records_listener :
  forall (os : OS) (g : GracefulUpgrader) (network address : string),
    (exists l : Listener,
        outcome (Listen os g network address) =
          Done (Ok l, {| ln := Some l; pid := pid g; ppid := ppid g |})) \/
    (exists err : error,
        outcome (Listen os g network address) = Done (Err err, g) /\ AcquireError err).
Proof.
  intros os g network address. unfold Listen.
  destruct (String.eqb (os_Getenv os GRACEFUL_RESTART) "true"); simpl.
  - destruct (net_FileListener os (os_NewFile 3 "")) as [l | e]; simpl.
    + left. exists l. reflexivity.
    + right. eexists. split; [reflexivity |]. exists e. auto.
  - destruct (net_Listen os network address) as [l | e]; simpl.
    + left. exists l. reflexivity.
    + right. eexists. split; [reflexivity |]. exists e. auto.
Qed.

(** X5.  [Reload] panics exactly when the executable's path resolves and
    the upgrader's listener is nil ([Listen] never succeeded) or is not a
    [*net.TCPListener]. *)
Theorem Reload_panics_iff :
  forall (os : OS) (g : GracefulUpgrader) (n : nat),
    (exists msg, outcome (Reload os g n) = Panic msg) <->
    (exists executable, os_Executable os n = Ok executable) /\
    (ln g = None \/ exists l, ln g = Some l /\ l_type l = UnixListener).
Proof.
  intros os g n. unfold Reload, assert_TCPListener.
  destruct (os_Executable os n) as [executable | e]; simpl.
  2:{ split; [intros [msg H]; discriminate | intros [[x H] _]; discriminate]. }
  destruct (ln g) as [l |]; simpl.
  2:{ split; [intros _ | intros _; eexists; reflexivity].
      split; [exists executable; reflexivity | left; reflexivity]. }
  destruct (l_type l) eqn:Htype; simpl.
  - split.
    + intros [msg H].
      destruct (TCPListener_File os n l); simpl in H; [| discriminate].
      destruct (os_StartProcess os n executable (os_Args os) _); discriminate.
    + intros [_ [H | [l' [H1 H2]]]]; [discriminate |].
      injection H1 as <-. rewrite Htype in H2. discriminate.
  - split; [intros _ | intros _; eexists; reflexivity].
    split; [exists executable; reflexivity |].
    right. exists l. split; [reflexivity | exact Htype].
Qed.

(** X6.  Once [Reload] holds a duplicate of the listener's descriptor it
    closes it on the way out, whether the child could be started or not:
    the duplicate is the one file closed, and closing it is the last thing
    [Reload] does. *)
Theorem Reload_closes_duplicate :
  forall (os : OS) (g : GracefulUpgrader) (n : nat)
         (executable : string) (l : Listener) (listenerFile : File),
    os_Executable os n = Ok executable ->
    ln g = Some l ->
    l_type l = TCPListener ->
    TCPListener_File os n l = Ok listenerFile ->
    closes_of (trace (Reload os g n)) = [listenerFile] /\
    exists t, trace (Reload os g n) = t ++ [EvFileClose listenerFile] /\
              length (spawns_of t) = 1.
Proof.
  intros os g n executable l listenerFile Hexe Hln Htype Hfile.
  unfold Reload, assert_TCPListener. rewrite Hexe, Hln. simpl. rewrite Htype. simpl.
  rewrite Hfile.
  destruct (os_StartProcess os n executable (os_Args os) _); simpl;
    (split; [reflexivity |]);
    match goal with
    | |- exists t, ?whole = t ++ _ /\ _ => exists (removelast whole)
    end; split; reflexivity.
Qed.

Lemma Reload_closes_duplicate_witness :
  closes_of (trace (Reload (with_failing_spawns linux 1) tcp_upgrader 0)) =
    [{| f_fd := 9; f_name := "tcp::8080" |}] /\
  exists t, trace (Reload (with_failing_spawns linux 1) tcp_upgrader 0) =
              t ++ [EvFileClose {| f_fd := 9; f_name := "tcp::8080" |}] /\
            length (spawns_of t) = 1.
Proof.
  apply (Reload_closes_duplicate (with_failing_spawns linux 1) tcp_upgrader 0 "/srv/app"
           {| l_type := TCPListener; l_fd := 7; l_network := "tcp"; l_address := ":8080" |});
    reflexivity.
Defined.

(** X7.  [Reload] asks for a new process exactly when the executable's path
    resolved, the listener is a TCP listener and its descriptor could be
    duplicated; in every other case no process is started. *)
Theorem Reload_spawns_once_iff :
  forall (os : OS) (g : GracefulUpgrader) (n : nat),
    (spawns_of (trace (Reload os g n)) = [] \/ length (spawns_of (trace (Reload os g n))) = 1) /\
    (length (spawns_of (trace (Reload os g n))) = 1 <->
     exists executable l listenerFile,
       os_Executable os n = Ok executable /\
       ln g = Some l /\ l_type l = TCPListener /\
       TCPListener_File os n l = Ok listenerFile).
Proof.
  intros os g n. unfold Reload, assert_TCPListener.
  destruct (os_Executable os n) as [executable | e]; simpl.
  2:{ split; [left; reflexivity |].
      split; [discriminate | intros (x & _ & _ & H & _); discriminate]. }
  destruct (ln g) as [l |]; simpl.
  2:{ split; [left; reflexivity |].
      split; [discriminate | intros (_ & x & _ & _ & H & _); discriminate]. }
  destruct (l_type l) eqn:Htype; simpl.
  2:{ split; [left; reflexivity |].
      split; [discriminate |].
      intros (_ & l' & _ & _ & H1 & H2 & _). injection H1 as <-.
      rewrite Htype in H2. discriminate. }
  destruct (TCPListener_File os n l) as [listenerFile | e] eqn:Hfile; simpl.
  2:{ split; [left; reflexivity |].
      split; [discriminate |].
      intros (_ & l' & f & _ & H1 & _ & H3). injection H1 as <-.
      rewrite Hfile in H3. discriminate. }
  destruct (os_StartProcess os n executable (os_Args os) _); simpl;
    (split; [right; reflexivity |]);
    (split; [intros _; exists executable, l, listenerFile; auto | reflexivity]).
Qed.

(** ** More on the signal loop *)

Lemma handled_cases (sig : Signal) :
  handled sig = true <-> sig = SIGHUP \/ sig = SIGTERM \/ sig = SIGINT.
Proof.
  unfold handled. rewrite !orb_true_iff, !Z.eqb_eq. tauto.
Qed.

Lemma WaitForSignal_loop_terminate_eq (os : OS) (g : GracefulUpgrader) (srv : Server)
    (n : nat) (sig : Signal) (rest : list Signal) :
  sig = SIGTERM \/ sig = SIGINT ->
  WaitForSignal_loop os g srv n (sig :: rest) =
    (Done (Returned (srv_Shutdown srv ctx30)),
     [EvShutdown ctx30;
      match srv_Shutdown srv ctx30 with
      | Some err => EvLog ErrorLevel "Failed to shutdown" [zap_Error err]
      | None => EvLog InfoLevel "Graceful shutdown completed" [zap_Int "pid" (pid g)]
      end;
      EvCancel ctx30]).
Proof.
  intros Hterm. simpl. fold_ctx30.
  replace (Z.eqb sig SIGHUP) with false by (destruct Hterm as [-> | ->]; reflexivity).
  replace (Z.eqb sig SIGTERM || Z.eqb sig SIGINT) with true
    by (destruct Hterm as [-> | ->]; reflexivity).
  destruct (srv_Shutdown srv ctx30); reflexivity.
Qed.

(** What [Reload] has done when it returns nil. *)
Lemma Reload_nil_trace (os : OS) (g : GracefulUpgrader) (n : nat) :
  outcome (Reload os g n) = Done None ->
  exists executable l listenerFile process,
    trace (Reload os g n) =
      [EvLog InfoLevel "Starting graceful reload" [zap_Int "old_pid" (pid g)];
       EvListenerFile l;
       EvStartProcess executable (os_Args os)
         {| Env := os_Environ os ++ ["GRACEFUL_RESTART=true"];
            Files := [os_Stdin; os_Stdout; os_Stderr; listenerFile] |};
       EvLog InfoLevel "Started new process" [zap_Int "new_pid" (Pid process)];
       EvFileClose listenerFile].
Proof.
  unfold Reload, assert_TCPListener.
  destruct (os_Executable os n) as [executable | e]; simpl; [| discriminate].
  destruct (ln g) as [l |]; simpl; [| discriminate].
  destruct (l_type l); simpl; [| discriminate].
  destruct (TCPListener_File os n l) as [listenerFile | e]; simpl; [| discriminate].
  destruct (os_StartProcess os n executable (os_Args os) _) as [p | e]; simpl;
    [| discriminate].
  intros _. exists executable, l, listenerFile, p. reflexivity.
Qed.

Lemma Reload_logs_no_error (os : OS) (g : GracefulUpgrader) (n : nat) :
  errors_logged (trace (Reload os g n)) = [].
Proof.
  unfold Reload, assert_TCPListener.
  destruct (os_Executable os n) as [executable | e]; simpl; [| reflexivity].
  destruct (ln g) as [l |]; simpl; [| reflexivity].
  destruct (l_type l); simpl; [| reflexivity].
  destruct (TCPListener_File os n l) as [listenerFile | e]; simpl; [| reflexivity].
  destruct (os_StartProcess os n executable (os_Args os) _); reflexivity.
Qed.

Lemma errors_logged_app (t u : Trace) :
  errors_logged (t ++ u) = errors_logged t ++ errors_logged u.
Proof.
  induction t as [| e t IH]; simpl; [reflexivity |].
  destruct e as [[] ? ? | | | | | | | | | | |]; simpl; rewrite IH; reflexivity.
Qed.

Lemma WaitForSignal_loop_filter (os : OS) (g : GracefulUpgrader) (srv : Server) :
  forall (signalChan : list Signal) (n : nat),
    WaitForSignal_loop os g srv n signalChan =
    WaitForSignal_loop os g srv n (filter handled signalChan).
Proof.
  induction signalChan as [| sig rest IH]; intros n; [reflexivity |].
  destruct (signal_cases sig) as [-> | [[Hhup Hterm] | (H1 & H2 & H3)]].
  - change (filter handled (SIGHUP :: rest)) with (SIGHUP :: filter handled rest).
    rewrite !WaitForSignal_loop_reload, <- (IH (S n)). reflexivity.
  - simpl filter.
    replace (handled sig) with true
      by (symmetry; apply handled_cases; tauto).
    rewrite !(WaitForSignal_loop_terminate_eq os g srv n sig) by exact Hterm. reflexivity.
  - simpl filter.
    replace (handled sig) with false.
    + rewrite (WaitForSignal_loop_ignored os g srv n sig rest H1 H2 H3). apply IH.
    + symmetry. destruct (handled sig) eqn:Hh; [| reflexivity].
      apply handled_cases in Hh. tauto.
Qed.

(** X8.  The loop has no case for a signal other than SIGHUP, SIGTERM and
    SIGINT: such signals change nothing, the run is the run on the handled
    signals alone. *)
Theorem WaitForSignal_ignores_unhandled :
  forall (os : OS) (g : GracefulUpgrader) (srv : Server) (signalChan : list Signal),
    WaitForSignal os g srv signalChan = WaitForSignal os g srv (filter handled signalChan).
Proof.
  intros os g srv signalChan. unfold WaitForSignal.
  rewrite (WaitForSignal_loop_filter os g srv signalChan 0). reflexivity.
Qed.

Lemma WaitForSignal_loop_left (os : OS) (g : GracefulUpgrader) (srv : Server) :
  forall (signalChan more : list Signal) (n : nat),
    outcome (WaitForSignal_loop os g srv n signalChan) <> Done Waiting ->
    WaitForSignal_loop os g srv n (signalChan ++ more) =
    WaitForSignal_loop os g srv n signalChan.
Proof.
  induction signalChan as [| sig rest IH]; intros more n Hleft.
  - exfalso. apply Hleft. reflexivity.
  - rewrite <- app_comm_cons.
    destruct (signal_cases sig) as [-> | [[Hhup Hterm] | (H1 & H2 & H3)]].
    + rewrite WaitForSignal_loop_reload in Hleft. rewrite !WaitForSignal_loop_reload.
      destruct (outcome (Reload os g n)) as [[err |] | msg]; [| reflexivity | reflexivity].
      simpl in Hleft. rewrite (IH more (S n) Hleft). reflexivity.
    + rewrite !(WaitForSignal_loop_terminate_eq os g srv n sig) by exact Hterm. reflexivity.
    + rewrite (WaitForSignal_loop_ignored os g srv n sig rest H1 H2 H3) in Hleft.
      rewrite !(WaitForSignal_loop_ignored os g srv n sig) by assumption.
      apply IH. exact Hleft.
Qed.

(** X9.  Leaving the loop is final: once [WaitForSignal] has returned or
    panicked on the signals received, signals that arrive later are not read
    and change neither the result nor what was done. *)
Theorem WaitForSignal_exit_is_final :
  forall (os : OS) (g : GracefulUpgrader) (srv : Server) (signalChan more : list Signal),
    state_of (WaitForSignal os g srv signalChan) <> Running ->
    WaitForSignal os g srv (signalChan ++ more) = WaitForSignal os g srv signalChan.
Proof.
  intros os g srv signalChan more Hleft. unfold WaitForSignal.
  rewrite (WaitForSignal_loop_left os g srv signalChan more 0); [reflexivity |].
  intros Hw. apply Hleft. unfold state_of, WaitForSignal.
  autorewrite with go. simpl. rewrite Hw. reflexivity.
Qed.

Lemma WaitForSignal_exit_is_final_witness :
  WaitForSignal linux tcp_upgrader stuck_server ([SIGQUIT; SIGTERM] ++ [SIGHUP; SIGINT]) =
  WaitForSignal linux tcp_upgrader stuck_server [SIGQUIT; SIGTERM].
Proof.
  apply (WaitForSignal_exit_is_final linux tcp_upgrader stuck_server [SIGQUIT; SIGTERM]
           [SIGHUP; SIGINT]).
  vm_compute. discriminate.
Defined.

Lemma WaitForSignal_loop_skip (os : OS) (g : GracefulUpgrader) (srv : Server)
    (n : nat) (ignored signalChan : list Signal) :
  forallb (fun s => negb (handled s)) ignored = true ->
  WaitForSignal_loop os g srv n (ignored ++ signalChan) =
  WaitForSignal_loop os g srv n signalChan.
Proof.
  induction ignored as [| s rest IH]; intros Hign; [reflexivity |].
  simpl in Hign. apply andb_true_iff in Hign. destruct Hign as [Hs Hrest].
  apply negb_true_iff in Hs.
  rewrite <- app_comm_cons, WaitForSignal_loop_ignored; [exact (IH Hrest) | | |];
    intros ->; discriminate.
Qed.

(** X10.  When the first handled signal is SIGTERM or SIGINT, the run is
    one drain and nothing else: [Shutdown] with the 30 second context, one
    log entry, [cancel]; the result is what [Shutdown] returned, and no
    reload is attempted, whatever signals follow. *)
Theorem terminate_drains_and_returns :
  forall (os : OS) (g : GracefulUpgrader) (srv : Server)
         (ignored : list Signal) (sig : Signal) (rest : list Signal),
    forallb (fun s => negb (handled s)) ignored = true ->
    sig = SIGTERM \/ sig = SIGINT ->
    WaitForSignal os g srv (ignored ++ sig :: rest) =
      (Done (Returned (srv_Shutdown srv ctx30)),
       [EvNotify [SIGHUP; SIGTERM; SIGINT];
        EvShutdown ctx30;
        match srv_Shutdown srv ctx30 with
        | Some err => EvLog ErrorLevel "Failed to shutdown" [zap_Error err]
        | None => EvLog InfoLevel "Graceful shutdown completed" [zap_Int "pid" (pid g)]
        end;
        EvCancel ctx30]).
Proof.
  intros os g srv ignored sig rest Hign Hterm.
  unfold WaitForSignal.
  rewrite (WaitForSignal_loop_skip os g srv 0 ignored _ Hign).
  rewrite (WaitForSignal_loop_terminate_eq os g srv 0 sig _ Hterm). reflexivity.
Qed.

Lemma terminate_drains_and_returns_witness :
  WaitForSignal linux tcp_upgrader stuck_server ([SIGQUIT; 10%Z] ++ SIGINT :: [SIGHUP]) =
    (Done (Returned (Some context_DeadlineExceeded)),
     [EvNotify [SIGHUP; SIGTERM; SIGINT];
      EvShutdown ctx30;
      EvLog ErrorLevel "Failed to shutdown" [zap_Error context_DeadlineExceeded];
      EvCancel ctx30]).
Proof.
  apply (terminate_drains_and_returns linux tcp_upgrader stuck_server [SIGQUIT; 10%Z] SIGINT
           [SIGHUP]).
  - reflexivity.
  - right. reflexivity.
Defined.

Lemma failing_reloads_loop (os : OS) (g : GracefulUpgrader) (srv : Server) :
  (forall n, exists err, outcome (Reload os g n) = Done (Some err)) ->
  forall (signalChan : list Signal) (n : nat),
    forallb (fun s => negb (Z.eqb s SIGTERM || Z.eqb s SIGINT)) signalChan = true ->
    outcome (WaitForSignal_loop os g srv n signalChan) = Done Waiting /\
    shutdowns_of (trace (WaitForSignal_loop os g srv n signalChan)) = [] /\
    errors_logged (trace (WaitForSignal_loop os g srv n signalChan)) =
      repeat "Failed to reload" (count_occ Z.eq_dec signalChan SIGHUP).
Proof.
  intros Hfail.
  induction signalChan as [| sig rest IH]; intros n Hsigs; [simpl; auto |].
  simpl in Hsigs. apply andb_true_iff in Hsigs. destruct Hsigs as [Hsig Hrest].
  apply negb_true_iff, orb_false_iff in Hsig. destruct Hsig as [Ht Hi].
  apply Z.eqb_neq in Ht. apply Z.eqb_neq in Hi.
  destruct (Z.eq_dec sig SIGHUP) as [-> | Hhup].
  - rewrite WaitForSignal_loop_reload.
    destruct (Hfail n) as [err Herr]. rewrite Herr.
    destruct (IH (S n) Hrest) as (Ho & Hs & He).
    destruct (Reload_quiet os g n) as (_ & Hsq & _).
    cbn [outcome trace fst snd]. split; [exact Ho |].
    rewrite shutdowns_of_app, errors_logged_app, Hsq, Reload_logs_no_error.
    rewrite count_occ_cons_eq by reflexivity.
    simpl. fold (outcome (WaitForSignal_loop os g srv (S n) rest)) in *.
    fold (trace (WaitForSignal_loop os g srv (S n) rest)).
    rewrite Hs, He. auto.
  - rewrite (WaitForSignal_loop_ignored os g srv n sig rest Hhup Ht Hi).
    rewrite count_occ_cons_neq by exact Hhup. exact (IH n Hrest).
Qed.

(** X11.  While every [Reload] returns an error and no SIGTERM or SIGINT
    arrives, [WaitForSignal] stays in its loop: [Shutdown] is never called,
    and the log holds one "Failed to reload" entry for each SIGHUP
    received, and no other error entry. *)
Theorem failing_reloads_never_drain :
  forall (os : OS) (g : GracefulUpgrader) (srv : Server) (signalChan : list Signal),
    (forall n, exists err, outcome (Reload os g n) = Done (Some err)) ->
    forallb (fun s => negb (Z.eqb s SIGTERM || Z.eqb s SIGINT)) signalChan = true ->
    state_of (WaitForSignal os g srv signalChan) = Running /\
    shutdowns_of (trace (WaitForSignal os g srv signalChan)) = [] /\
    errors_logged (trace (WaitForSignal os g srv signalChan)) =
      repeat "Failed to reload" (count_occ Z.eq_dec signalChan SIGHUP).
Proof.
  intros os g srv signalChan Hfail Hsigs.
  destruct (failing_reloads_loop os g srv Hfail signalChan 0 Hsigs) as (Ho & Hs & He).
  unfold state_of, WaitForSignal. autorewrite with go. simpl.
  rewrite Ho. auto.
Qed.

Lemma failing_reloads_never_drain_witness :
  state_of (WaitForSignal (with_no_executable linux) tcp_upgrader quick_server
                          [SIGHUP; SIGQUIT; SIGHUP; SIGHUP]) = Running /\
  shutdowns_of (trace (WaitForSignal (with_no_executable linux) tcp_upgrader quick_server
                                     [SIGHUP; SIGQUIT; SIGHUP; SIGHUP])) = [] /\
  errors_logged (trace (WaitForSignal (with_no_executable linux) tcp_upgrader quick_server
                                      [SIGHUP; SIGQUIT; SIGHUP; SIGHUP])) =
    repeat "Failed to reload" (count_occ Z.eq_dec [SIGHUP; SIGQUIT; SIGHUP; SIGHUP] SIGHUP).
Proof.
  apply (failing_reloads_never_drain (with_no_executable linux) tcp_upgrader quick_server
           [SIGHUP; SIGQUIT; SIGHUP; SIGHUP]).
  - intros n. eexists. reflexivity.
  - reflexivity.
Defined.

(** X12.  A reload signal whose [Reload] returns nil: the child has been
    started and the parent's duplicate of the descriptor closed before the
    server's [Shutdown] is called; the loop calls it at once, returns what
    it returned and reads no further signal. *)
Theorem reload_spawns_then_drains :
  forall (os : OS) (g : GracefulUpgrader) (srv : Server) (n : nat) (rest : list Signal),
    outcome (Reload os g n) = Done None ->
    outcome (WaitForSignal_loop os g srv n (SIGHUP :: rest)) =
      Done (Returned (srv_Shutdown srv ctx30)) /\
    WaitForSignal_loop os g srv n (SIGHUP :: rest) = WaitForSignal_loop os g srv n [SIGHUP] /\
    exists before after,
      trace (WaitForSignal_loop os g srv n (SIGHUP :: rest)) =
        before ++ EvShutdown ctx30 :: after /\
      length (spawns_of before) = 1 /\
      length (closes_of before) = 1 /\
      shutdowns_of before = [] /\
      spawns_of after = [].
Proof.
  intros os g srv n rest Hok.
  rewrite !WaitForSignal_loop_reload, Hok.
  split; [reflexivity | split; [reflexivity |]].
  destruct (Reload_nil_trace os g n Hok) as (executable & l & f & p & Ht).
  exists (trace (Reload os g n)). eexists. split; [reflexivity |].
  rewrite Ht. repeat split.
  destruct (srv_Shutdown srv ctx30); reflexivity.
Qed.

Lemma reload_spawns_then_drains_witness :
  outcome (WaitForSignal_loop linux tcp_upgrader stuck_server 0 (SIGHUP :: [SIGTERM])) =
    Done (Returned (srv_Shutdown stuck_server ctx30)) /\
  WaitForSignal_loop linux tcp_upgrader stuck_server 0 (SIGHUP :: [SIGTERM]) =
    WaitForSignal_loop linux tcp_upgrader stuck_server 0 [SIGHUP] /\
  exists before after,
    trace (WaitForSignal_loop linux tcp_upgrader stuck_server 0 (SIGHUP :: [SIGTERM])) =
      before ++ EvShutdown ctx30 :: after /\
    length (spawns_of before) = 1 /\
    length (closes_of before) = 1 /\
    shutdowns_of before = [] /\
    spawns_of after = [].
Proof.
  apply (reload_spawns_then_drains linux tcp_upgrader stuck_server 0 [SIGTERM]).
  reflexivity.
Defined.

(** ** More on [GracefulRun] *)

Lemma Listen_error_cause (os : OS) (g : GracefulUpgrader) (network address : string)
    (err : error) (g' : GracefulUpgrader) :
  outcome (Listen os g network address) = Done (Err err, g') ->
  exists cause,
    err = fmt_Errorf "failed to inherit listener" cause \/
    err = fmt_Errorf "failed to create listener" cause.
Proof.
  unfold Listen.
  destruct (String.eqb (os_Getenv os GRACEFUL_RESTART) "true"); simpl.
  - destruct (net_FileListener os (os_NewFile 3 "")) as [l | e]; simpl; [discriminate |].
    intros H. injection H as <- _. exists e. left. reflexivity.
  - destruct (net_Listen os network address) as [l | e]; simpl; [discriminate |].
    intros H. injection H as <- _. exists e. right. reflexivity.
Qed.

(** X13.  When [Listen] fails, [GracefulRun] returns its error wrapped once
    more as "failed to create listener" and has done nothing beyond the
    [Listen] call: no serving goroutine, no signal subscription, no signal
    read.  The message then starts with the prefix twice, or with the
    prefix followed by "failed to inherit listener". *)
Theorem GracefulRun_listen_failure :
  forall (os : OS) (e : Engine) (signalChan : list Signal) (err : error) (g' : GracefulUpgrader),
    outcome (Listen os (NewGracefulUpgrader os) "tcp" (port_address (Port (options e)))) =
      Done (Err err, g') ->
    GracefulRun os e signalChan =
      (Done (Returned (Some (fmt_Errorf "failed to create listener" err))),
       trace (Listen os (NewGracefulUpgrader os) "tcp" (port_address (Port (options e))))) /\
    exists cause,
      Error (fmt_Errorf "failed to create listener" err) =
        ("failed to create listener: failed to create listener: " ++ Error cause)%string \/
      Error (fmt_Errorf "failed to create listener" err) =
        ("failed to create listener: failed to inherit listener: " ++ Error cause)%string.
Proof.
  intros os e signalChan err g' Hfail.
  split.
  - unfold GracefulRun.
    destruct (Listen os (NewGracefulUpgrader os) "tcp" (port_address (Port (options e))))
      as [o t].
    simpl in Hfail. subst o. simpl. rewrite app_nil_r. reflexivity.
  - destruct (Listen_error_cause os (NewGracefulUpgrader os) "tcp"
                (port_address (Port (options e))) err g' Hfail) as [cause [-> | ->]];
      exists cause; [right | left]; reflexivity.
Qed.

Lemma GracefulRun_listen_failure_witness :
  GracefulRun (with_port_in_use linux) (new_Engine quick_server) [SIGHUP; SIGTERM] =
    (Done (Returned (Some (fmt_Errorf "failed to create listener"
                             (fmt_Errorf "failed to create listener"
                                (errors_New "bind: address already in use"))))),
     trace (Listen (with_port_in_use linux) (NewGracefulUpgrader (with_port_in_use linux)) "tcp"
                   (port_address (Port (options (new_Engine quick_server)))))) /\
  exists cause,
    Error (fmt_Errorf "failed to create listener"
             (fmt_Errorf "failed to create listener"
                (errors_New "bind: address already in use"))) =
      ("failed to create listener: failed to create listener: " ++ Error cause)%string \/
    Error (fmt_Errorf "failed to create listener"
             (fmt_Errorf "failed to create listener"
                (errors_New "bind: address already in use"))) =
      ("failed to create listener: failed to inherit listener: " ++ Error cause)%string.
Proof.
  apply (GracefulRun_listen_failure (with_port_in_use linux) (new_Engine quick_server)
           [SIGHUP; SIGTERM]
           (fmt_Errorf "failed to create listener" (errors_New "bind: address already in use"))
           (NewGracefulUpgrader (with_port_in_use linux))).
  reflexivity.
Defined.

Lemma Reload_TCP_returns (os : OS) (g : GracefulUpgrader) (n : nat) (l : Listener) :
  ln g = Some l -> l_type l = TCPListener ->
  exists r, outcome (Reload os g n) = Done r.
Proof.
  intros Hln Htype. unfold Reload, assert_TCPListener. rewrite Hln.
  destruct (os_Executable os n) as [executable | e]; simpl; [| eexists; reflexivity].
  rewrite Htype. simpl.
  destruct (TCPListener_File os n l) as [f | e]; simpl; [| eexists; reflexivity].
  destruct (os_StartProcess os n executable (os_Args os) _); simpl; eexists; reflexivity.
Qed.

Lemma WaitForSignal_loop_TCP_returns (os : OS) (g : GracefulUpgrader) (srv : Server)
    (l : Listener) :
  ln g = Some l -> l_type l = TCPListener ->
  forall (signalChan : list Signal) (n : nat),
    exists r, outcome (WaitForSignal_loop os g srv n signalChan) = Done r.
Proof.
  intros Hln Htype.
  induction signalChan as [| sig rest IH]; intros n; [eexists; reflexivity |].
  destruct (signal_cases sig) as [-> | [[Hhup Hterm] | (H1 & H2 & H3)]].
  - rewrite WaitForSignal_loop_reload.
    destruct (Reload_TCP_returns os g n l Hln Htype) as [[err |] Hr]; rewrite Hr.
    + exact (IH (S n)).
    + eexists; reflexivity.
  - rewrite (WaitForSignal_loop_terminate_eq os g srv n sig rest Hterm). eexists; reflexivity.
  - rewrite (WaitForSignal_loop_ignored os g srv n sig rest H1 H2 H3). exact (IH n).
Qed.

(** X14.  On a system where listening on "tcp" and wrapping a descriptor
    give TCP listeners, [GracefulRun] never panics, whatever signals arrive
    and whatever else fails: the listener it hands to [Reload] is the one
    [Listen] recorded. *)
Theorem GracefulRun_never_panics_on_TCP :
  forall (os : OS) (e : Engine) (signalChan : list Signal),
    (forall address l, net_Listen os "tcp" address = Ok l -> l_type l = TCPListener) ->
    (forall f l, net_FileListener os f = Ok l -> l_type l = TCPListener) ->
    state_of (GracefulRun os e signalChan) <> Crashed.
Proof.
  intros os e signalChan Hbind Hwrap.
  assert (Hrun : exists r, outcome (GracefulRun os e signalChan) = Done r).
  { unfold GracefulRun, Listen.
    destruct (String.eqb (os_Getenv os GRACEFUL_RESTART) "true"); simpl.
    - destruct (net_FileListener os (os_NewFile 3 "")) as [l | err] eqn:Hl; simpl;
        [| eexists; reflexivity].
      destruct (WaitForSignal_loop_TCP_returns os (set_ln (NewGracefulUpgrader os) l)
                  (server e) l eq_refl (Hwrap _ _ Hl) signalChan 0) as [r Hr].
      unfold WaitForSignal.
      destruct (WaitForSignal_loop os (set_ln (NewGracefulUpgrader os) l) (server e) 0
                                   signalChan) as [o t].
      simpl in Hr. subst o. exists r. reflexivity.
    - destruct (net_Listen os "tcp" (port_address (Port (options e)))) as [l | err] eqn:Hl;
        simpl; [| eexists; reflexivity].
      destruct (WaitForSignal_loop_TCP_returns os (set_ln (NewGracefulUpgrader os) l)
                  (server e) l eq_refl (Hbind _ _ Hl) signalChan 0) as [r Hr].
      unfold WaitForSignal.
      destruct (WaitForSignal_loop os (set_ln (NewGracefulUpgrader os) l) (server e) 0
                                   signalChan) as [o t].
      simpl in Hr. subst o. exists r. reflexivity. }
  destruct Hrun as [r Hr]. unfold state_of. rewrite Hr.
  destruct r; discriminate.
Qed.

Lemma linux_tcp_is_TCP (address : string) (l : Listener) :
  net_Listen linux "tcp" address = Ok l -> l_type l = TCPListener.
Proof. simpl. intros H. injection H as <-. reflexivity. Qed.

Lemma linux_wrap_is_TCP (f : File) (l : Listener) :
  net_FileListener linux f = Ok l -> l_type l = TCPListener.
Proof. simpl. intros H. injection H as <-. reflexivity. Qed.

Lemma GracefulRun_never_panics_on_TCP_witness :
  state_of (GracefulRun linux (engine_with_callbacks stuck_server) [SIGHUP; SIGTERM]) <> Crashed.
Proof.
  apply (GracefulRun_never_panics_on_TCP linux (engine_with_callbacks stuck_server)
           [SIGHUP; SIGTERM]).
  - exact linux_tcp_is_TCP.
  - exact linux_wrap_is_TCP.
Defined.

(** [Reload] and the signal loop acquire no listener themselves. *)
Lemma Reload_no_listen (os : OS) (g : GracefulUpgrader) (n : nat) :
  binds_of (trace (Reload os g n)) = [] /\ wraps_of (trace (Reload os g n)) = [].
Proof.
  unfold Reload, assert_TCPListener.
  destruct (os_Executable os n) as [executable | e]; simpl; [| auto].
  destruct (ln g) as [l |]; simpl; [| auto].
  destruct (l_type l); simpl; [| auto].
  destruct (TCPListener_File os n l) as [f | e]; simpl; [| auto].
  destruct (os_StartProcess os n executable (os_Args os) _); simpl; auto.
Qed.

Lemma WaitForSignal_loop_no_listen (os : OS) (g : GracefulUpgrader) (srv : Server) :
  forall (signalChan : list Signal) (n : nat),
    binds_of (trace (WaitForSignal_loop os g srv n signalChan)) = [] /\
    wraps_of (trace (WaitForSignal_loop os g srv n signalChan)) = [].
Proof.
  induction signalChan as [| sig rest IH]; intros n; [simpl; auto |].
  destruct (signal_cases sig) as [-> | [[Hhup Hterm] | (H1 & H2 & H3)]].
  - rewrite WaitForSignal_loop_reload.
    destruct (Reload_no_listen os g n) as [Hb Hw].
    destruct (outcome (Reload os g n)) as [[err |] | msg]; cbn [trace snd];
      rewrite ?binds_of_app, ?wraps_of_app, Hb, Hw; simpl;
      [exact (IH (S n)) | destruct (srv_Shutdown srv ctx30); auto | auto].
  - rewrite (WaitForSignal_loop_terminate_eq os g srv n sig rest Hterm).
    destruct (srv_Shutdown srv ctx30); simpl; auto.
  - rewrite (WaitForSignal_loop_ignored os g srv n sig rest H1 H2 H3). exact (IH n).
Qed.

Lemma Reload_spawn_env (os : OS) (g : GracefulUpgrader) (n : nat)
    (executable : string) (argv : list string) (attr : ProcAttr) :
  In (executable, argv, attr) (spawns_of (trace (Reload os g n))) ->
  Env attr = os_Environ os ++ ["GRACEFUL_RESTART=true"].
Proof.
  unfold Reload, assert_TCPListener.
  destruct (os_Executable os n) as [exe | e]; simpl; [| tauto].
  destruct (ln g) as [l |]; simpl; [| tauto].
  destruct (l_type l); simpl; [| tauto].
  destruct (TCPListener_File os n l) as [f | e]; simpl; [| tauto].
  destruct (os_StartProcess os n exe (os_Args os) _); simpl;
    (intros [H | []]; injection H as _ _ <-; reflexivity).
Qed.

Lemma marker_survives_append (envs : list string) :
  LookupEnv envs GRACEFUL_RESTART = None \/ Getenv envs GRACEFUL_RESTART = "true" ->
  Getenv (envs ++ ["GRACEFUL_RESTART=true"]) GRACEFUL_RESTART = "true".
Proof.
  intros [Hnone | Htrue]; [exact (child_reads_marker envs Hnone) |].
  unfold Getenv in *. simpl in *.
  change (String "G" "RACEFUL_RESTART") with GRACEFUL_RESTART in *.
  rewrite LookupEnv_app.
  destruct (LookupEnv envs GRACEFUL_RESTART) as [v |]; [exact Htrue | reflexivity].
Qed.

(** X15.  The handoff.  A process started by [Reload], whose environment
    is the block [Reload] passed on, when the parent's environment has no
    [GRACEFUL_RESTART] entry or reads it as "true", runs [GracefulRun]
    without ever binding: it wraps descriptor 3, once, and that is the only
    listener it acquires, whatever signals it then gets. *)
Theorem spawned_child_inherits :
  forall (os : OS) (g : GracefulUpgrader) (n : nat)
         (executable : string) (argv : list string) (attr : ProcAttr)
         (child : OS) (e : Engine) (signalChan : list Signal),
    In (executable, argv, attr) (spawns_of (trace (Reload os g n))) ->
    LookupEnv (os_Environ os) GRACEFUL_RESTART = None \/ os_Getenv os GRACEFUL_RESTART = "true" ->
    os_Environ child = Env attr ->
    wraps_of (trace (GracefulRun child e signalChan)) = [3%Z] /\
    binds_of (trace (GracefulRun child e signalChan)) = [].
Proof.
  intros os g n executable argv attr child e signalChan Hspawn Henv Hchild.
  assert (Hmarker : os_Getenv child GRACEFUL_RESTART = "true").
  { unfold os_Getenv. rewrite Hchild.
    rewrite (Reload_spawn_env os g n executable argv attr Hspawn).
    apply marker_survives_append. exact Henv. }
  unfold GracefulRun.
  rewrite (Listen_marker_true _ _ _ _ Hmarker).
  destruct (net_FileListener child (os_NewFile 3 "")) as [l | err];
    [| split; reflexivity].
  unfold WaitForSignal.
  destruct (WaitForSignal_loop_no_listen child
              (set_ln (NewGracefulUpgrader child) l) (server e) signalChan 0)
    as [Hb Hw].
  simpl.
  destruct (WaitForSignal_loop child
              (set_ln (NewGracefulUpgrader child) l) (server e) 0 signalChan)
    as [o t].
  simpl in *. rewrite Hb, Hw. split; reflexivity.
Qed.

Lemma spawned_child_inherits_witness :
  wraps_of (trace (GracefulRun
                     (child_of linux
                        {| Env := ["PATH=/usr/bin"; "HOME=/root"; "GRACEFUL_RESTART=true"];
                           Files := [os_Stdin; os_Stdout; os_Stderr;
                                     {| f_fd := 9; f_name := "tcp::8080" |}] |})
                     (new_Engine quick_server) [SIGHUP; SIGTERM])) = [3%Z] /\
  binds_of (trace (GracefulRun
                     (child_of linux
                        {| Env := ["PATH=/usr/bin"; "HOME=/root"; "GRACEFUL_RESTART=true"];
                           Files := [os_Stdin; os_Stdout; os_Stderr;
                                     {| f_fd := 9; f_name := "tcp::8080" |}] |})
                     (new_Engine quick_server) [SIGHUP; SIGTERM])) = [].
Proof.
  apply (spawned_child_inherits linux tcp_upgrader 0 "/srv/app"
           ["/srv/app"; "-config"; "app.yaml"]
           {| Env := ["PATH=/usr/bin"; "HOME=/root"; "GRACEFUL_RESTART=true"];
              Files := [os_Stdin; os_Stdout; os_Stderr;
                        {| f_fd := 9; f_name := "tcp::8080" |}] |}).
  - left. reflexivity.
  - left. reflexivity.
  - reflexivity.
Defined.

(** ** The broker-backed upgrader and [Engine.Run] *)

(** X16.  [Engine.Run] and [Stop()].  When the upgrader cannot be created
    nothing is stopped and nothing else is called.  Once it was created,
    every return of [Run] ends with the deferred [Stop()]; [Stop()] is
    called at most twice; and the serving goroutine is started only after
    [Listen] and [Ready] both succeeded. *)
Theorem Run_stop_discipline :
  forall (tf : Broker.Tableflip) (e : Engine) (serve : Broker.ServeOutcome),
    (forall err, Broker.tableflip_New tf = Some err ->
       Broker.Run tf e serve =
         (Returned (Some (fmt_Errorf "failed to create upgrader"
                            (fmt_Errorf "failed to create upgrader" err))),
          [Broker.CallNew])) /\
    (Broker.tableflip_New tf = None ->
     forall r, fst (Broker.Run tf e serve) = Returned r ->
       last (snd (Broker.Run tf e serve)) Broker.CallNew = Broker.CallStop) /\
    length (filter Broker.is_Stop (snd (Broker.Run tf e serve))) <= 2 /\
    (filter Broker.is_GoServe (snd (Broker.Run tf e serve)) <> [] ->
     (exists l, Broker.upg_Listen tf "tcp" (port_address (Port (options e))) = Ok l) /\
     Broker.upg_Ready tf = None).
Proof.
  intros tf e serve. unfold Broker.Run, Broker.New, Broker.Listen, Broker.Ready.
  destruct (Broker.tableflip_New tf) as [e0 |]; simpl.
  { split; [intros err H; injection H as <-; reflexivity |].
    split; [discriminate |]. split; [lia |]. intros H; contradiction. }
  split; [discriminate |].
  destruct (Broker.upg_Listen tf "tcp" (port_address (Port (options e)))) as [l | e1]; simpl.
  2:{ split; [reflexivity |]. split; [lia |]. intros H; contradiction. }
  destruct (Broker.upg_Ready tf) as [e2 |]; simpl.
  { split; [reflexivity |]. split; [lia |]. intros H; contradiction. }
  destruct serve as [| | err]; simpl.
  - destruct (Broker.exit_closed tf 0); simpl;
      (split; [intros _ r H; discriminate || reflexivity |]);
      (split; [lia |]); intros _; (split; [exists l |]; reflexivity).
  - destruct (Broker.exit_closed tf 0); simpl;
      (split; [intros _ r H; discriminate || reflexivity |]);
      (split; [lia |]); intros _; (split; [exists l |]; reflexivity).
  - destruct (Broker.exit_closed tf 1); simpl;
      (split; [intros _ r H; discriminate || reflexivity |]);
      (split; [lia |]); intros _; (split; [exists l |]; reflexivity).
Qed.

Lemma Run_stop_discipline_witness :
  Broker.Run (Broker.with_Listen_error Broker.healthy (errors_New "address in use"))
             (new_Engine quick_server) Broker.Serving =
    (Returned (Some (fmt_Errorf "failed to create listener"
                       (fmt_Errorf "failed to create listener" (errors_New "address in use")))),
     [Broker.CallNew; Broker.CallListen "tcp" ":8080"; Broker.CallStop]) /\
  last (snd (Broker.Run Broker.healthy (new_Engine quick_server)
                        (Broker.ServeFailed (errors_New "accept: too many open files"))))
       Broker.CallNew = Broker.CallStop.
Proof.
  split; [reflexivity |].
  apply (proj1 (proj2 (Run_stop_discipline Broker.healthy (new_Engine quick_server)
                         (Broker.ServeFailed (errors_New "accept: too many open files"))))
           eq_refl None).
  reflexivity.
Defined.

(** X17.  [Engine.Run] never starts [WatchSignal]: in no run does it
    subscribe to a signal or ask the broker for an upgrade. *)
Theorem Run_never_watches_signals :
  forall (tf : Broker.Tableflip) (e : Engine) (serve : Broker.ServeOutcome),
    filter Broker.is_Notify (snd (Broker.Run tf e serve)) = [] /\
    filter Broker.is_Upgrade (snd (Broker.Run tf e serve)) = [].
Proof.
  intros tf e serve. unfold Broker.Run, Broker.New, Broker.Listen, Broker.Ready.
  destruct (Broker.tableflip_New tf); simpl; [auto |].
  destruct (Broker.upg_Listen tf "tcp" (port_address (Port (options e)))); simpl; [| auto].
  destruct (Broker.upg_Ready tf); simpl; [auto |].
  destruct serve; simpl;
    match goal with |- context [Broker.exit_closed tf ?k] => destruct (Broker.exit_closed tf k) end;
    simpl; auto.
Qed.

(** X18.  When the server's [Serve] fails while [Run] waits, and [Stop()]
    closes the broker's exit channel, [Run] logs "Server error" and returns
    nil: the server's error does not reach the caller.  [Stop()] has then
    been called twice, by the goroutine and by the deferred call. *)
Theorem Run_swallows_serve_error :
  forall (tf : Broker.Tableflip) (e : Engine) (l : Listener) (err : error),
    Broker.tableflip_New tf = None ->
    Broker.upg_Listen tf "tcp" (port_address (Port (options e))) = Ok l ->
    Broker.upg_Ready tf = None ->
    Broker.exit_closed tf 1 = true ->
    Broker.Run tf e (Broker.ServeFailed err) =
      (Returned None,
       [Broker.CallNew;
        Broker.CallListen "tcp" (port_address (Port (options e)));
        Broker.CallReady;
        Broker.CallLog InfoLevel "Server is starting" [zap_Int "port" (Port (options e))];
        Broker.CallGoServe l;
        Broker.CallLog ErrorLevel "Server error" [zap_Error err];
        Broker.CallStop;
        Broker.CallStop]).
Proof.
  intros tf e l err Hnew Hlisten Hready Hexit.
  unfold Broker.Run, Broker.New, Broker.Listen, Broker.Ready.
  rewrite Hnew. simpl. rewrite Hlisten. simpl. rewrite Hready. simpl.
  rewrite Hexit. reflexivity.
Qed.

Lemma Run_swallows_serve_error_witness :
  Broker.Run Broker.healthy (new_Engine quick_server)
             (Broker.ServeFailed (errors_New "accept: too many open files")) =
    (Returned None,
     [Broker.CallNew;
      Broker.CallListen "tcp" (port_address (Port (options (new_Engine quick_server))));
      Broker.CallReady;
      Broker.CallLog InfoLevel "Server is starting"
        [zap_Int "port" (Port (options (new_Engine quick_server)))];
      Broker.CallGoServe {| l_type := TCPListener; l_fd := 7; l_network := "tcp";
                            l_address := ":8080" |};
      Broker.CallLog ErrorLevel "Server error"
        [zap_Error (errors_New "accept: too many open files")];
      Broker.CallStop;
      Broker.CallStop]).
Proof.
  apply (Run_swallows_serve_error Broker.healthy (new_Engine quick_server)); reflexivity.
Defined.

Lemma WatchSignal_loop_counts (tf : Broker.Tableflip) :
  forall (sig : list Signal) (n : nat),
    length (filter Broker.is_Upgrade (snd (Broker.WatchSignal_loop tf n sig))) = length sig /\
    length (filter Broker.is_failure_log (snd (Broker.WatchSignal_loop tf n sig))) =
      length (filter (fun k => match Broker.upg_Upgrade tf k with
                               | Some _ => true
                               | None => false
                               end)
                     (seq n (length sig))).
Proof.
  induction sig as [| s rest IH]; intros n; [split; reflexivity |].
  destruct (IH (S n)) as [Hu Hf].
  simpl. destruct (Broker.WatchSignal_loop tf (S n) rest) as [[] t]. simpl in Hu, Hf.
  destruct (Broker.upg_Upgrade tf n); simpl; rewrite Hu, Hf; split; reflexivity.
Qed.

(** X19.  The goroutine of [WatchSignal] asks the broker for one upgrade per
    signal received, whatever the signal; an upgrade that fails is logged
    and the loop goes on to the next signal. *)
Theorem WatchSignal_upgrades_per_signal :
  forall (tf : Broker.Tableflip) (sig : list Signal),
    length (filter Broker.is_Upgrade (snd (Broker.WatchSignal tf sig))) = length sig /\
    length (filter Broker.is_failure_log (snd (Broker.WatchSignal tf sig))) =
      length (filter (fun k => match Broker.upg_Upgrade tf k with
                               | Some _ => true
                               | None => false
                               end)
                     (seq 0 (length sig))).
Proof.
  intros tf sig. destruct (WatchSignal_loop_counts tf sig 0) as [Hu Hf].
  unfold Broker.WatchSignal. simpl.
  destruct (Broker.WatchSignal_loop tf 0 sig) as [[] t]. exact (conj Hu Hf).
Qed.

(** ** The logger *)

(** X20.  [NewLogger] succeeds exactly when the log level parses and, if a
    file name is given, its directory could be made.  A failure to make the
    directory is reported first, as "can't create log directory"; a bad
    level as "parse log level error". *)
Theorem NewLogger_succeeds_iff :
  forall (w : Logger.World) (conf : Logger.LogConfig),
    ((exists logger, fst (Logger.NewLogger w conf) = Ok logger) <->
     (Logger.Filename conf = "" \/
      Logger.os_MkdirAll w (Logger.filepath_Dir w (Logger.Filename conf)) 484 = None) /\
     exists level, Logger.zapcore_ParseLevel w (Logger.Level conf) = Ok level) /\
    (forall err,
        Logger.Filename conf <> "" ->
        Logger.os_MkdirAll w (Logger.filepath_Dir w (Logger.Filename conf)) 484 = Some err ->
        fst (Logger.NewLogger w conf) = Err (fmt_Errorf "can't create log directory" err)) /\
    (forall err,
        (Logger.Filename conf = "" \/
         Logger.os_MkdirAll w (Logger.filepath_Dir w (Logger.Filename conf)) 484 = None) ->
        Logger.zapcore_ParseLevel w (Logger.Level conf) = Err err ->
        fst (Logger.NewLogger w conf) = Err (fmt_Errorf "parse log level error" err)).
Proof.
  intros w conf. unfold Logger.NewLogger, Logger.nonempty.
  change Logger.perm_0744 with 484%Z.
  destruct (String.eqb_spec (Logger.Filename conf) "") as [Hempty | Hfile]; simpl.
  - destruct (Logger.zapcore_ParseLevel w (Logger.Level conf)) as [level | e]; simpl.
    + split; [split; [intros _; split; [left; exact Hempty | exists level; reflexivity]
                     | intros _; eexists; reflexivity] |].
      split; [intros err H; contradiction | intros err _ H; discriminate].
    + split; [split; [intros [x H]; discriminate | intros [_ [x H]]; discriminate] |].
      split; [intros err H; contradiction | intros err _ H; injection H as <-; reflexivity].
  - destruct (Logger.os_MkdirAll w (Logger.filepath_Dir w (Logger.Filename conf)) 484)
      as [e0 |]; simpl.
    + split; [split; [intros [x H]; discriminate
                     | intros [[H | H] _]; [contradiction | discriminate]] |].
      split; [intros err _ H; injection H as <-; reflexivity |].
      intros err [H | H]; [contradiction | discriminate].
    + destruct (Logger.zapcore_ParseLevel w (Logger.Level conf)) as [level | e]; simpl.
      * split; [split; [intros _; split; [right; reflexivity | exists level; reflexivity]
                       | intros _; eexists; reflexivity] |].
        split; [intros err _ H; discriminate | intros err _ H; discriminate].
      * split; [split; [intros [x H]; discriminate | intros [_ [x H]]; discriminate] |].
        split; [intros err _ H; discriminate |].
        intros err _ H; injection H as <-; reflexivity.
Qed.

Lemma NewLogger_succeeds_iff_witness :
  fst (Logger.NewLogger Logger.sample_World (Logger.sample_conf "loud" "/proc/app/app.log" true)) =
    Err (fmt_Errorf "can't create log directory" (errors_New "mkdir /proc: permission denied")) /\
  fst (Logger.NewLogger Logger.sample_World (Logger.sample_conf "loud" "" true)) =
    Err (fmt_Errorf "parse log level error" (errors_New "unrecognized level")).
Proof.
  split.
  - apply (proj1 (proj2 (NewLogger_succeeds_iff Logger.sample_World
                           (Logger.sample_conf "loud" "/proc/app/app.log" true)))).
    + discriminate.
    + reflexivity.
  - apply (proj2 (proj2 (NewLogger_succeeds_iff Logger.sample_World
                           (Logger.sample_conf "loud" "" true)))).
    + left. reflexivity.
    + reflexivity.
Defined.

(** X21.  [NewLogger] touches the file system only for a file name: with an
    empty name it makes no call at all, otherwise exactly one
    [MkdirAll(filepath.Dir(name), 0744)], which it makes before it looks at
    the level, so also when it then fails on the level. *)
Theorem NewLogger_filesystem_calls :
  forall (w : Logger.World) (conf : Logger.LogConfig),
    (Logger.Filename conf = "" -> snd (Logger.NewLogger w conf) = []) /\
    (Logger.Filename conf <> "" ->
     snd (Logger.NewLogger w conf) =
       [Logger.MkdirAll (Logger.filepath_Dir w (Logger.Filename conf)) 484]).
Proof.
  intros w conf. unfold Logger.NewLogger, Logger.nonempty.
  change Logger.perm_0744 with 484%Z.
  destruct (String.eqb_spec (Logger.Filename conf) "") as [Hempty | Hfile]; simpl.
  - split; [intros _ | intros H; contradiction].
    destruct (Logger.zapcore_ParseLevel w (Logger.Level conf)); reflexivity.
  - split; [intros H; contradiction | intros _].
    destruct (Logger.os_MkdirAll w (Logger.filepath_Dir w (Logger.Filename conf)) 484);
      [reflexivity |].
    destruct (Logger.zapcore_ParseLevel w (Logger.Level conf)); reflexivity.
Qed.

Lemma NewLogger_filesystem_calls_witness :
  snd (Logger.NewLogger Logger.sample_World (Logger.sample_conf "loud" "/srv/app.log" false)) =
    [Logger.MkdirAll
       (Logger.filepath_Dir Logger.sample_World
          (Logger.Filename (Logger.sample_conf "loud" "/srv/app.log" false))) 484] /\
  snd (Logger.NewLogger Logger.sample_World (Logger.sample_conf "info" "" true)) = [].
Proof.
  split.
  - apply (proj2 (NewLogger_filesystem_calls Logger.sample_World
                    (Logger.sample_conf "loud" "/srv/app.log" false))).
    discriminate.
  - apply (proj1 (NewLogger_filesystem_calls Logger.sample_World
                    (Logger.sample_conf "info" "" true))).
    reflexivity.
Defined.

(** X22.  The logger [NewLogger] returns has one core for the file, when a
    name is given, followed by one for the console, when asked for, and no
    other: with neither it has no core at all and still is returned without
    error.  Every core carries the parsed level, and the file core the
    rotation settings of the configuration. *)
Theorem NewLogger_cores :
  forall (w : Logger.World) (conf : Logger.LogConfig) (logger : Logger.zap_Logger),
    fst (Logger.NewLogger w conf) = Ok logger ->
    exists level,
      Logger.zapcore_ParseLevel w (Logger.Level conf) = Ok level /\
      Logger.tee logger =
        (if Logger.nonempty (Logger.Filename conf)
         then [{| Logger.core_enc := Logger.NewJSONEncoder;
                  Logger.core_ws :=
                    Logger.AddSync {| Logger.lj_Filename := Logger.Filename conf;
                                      Logger.lj_MaxSize := Logger.MaxSize conf;
                                      Logger.lj_MaxBackups := Logger.MaxBackups conf;
                                      Logger.lj_MaxAge := Logger.MaxAge conf;
                                      Logger.lj_Compress := Logger.Compress conf;
                                      Logger.lj_LocalTime := Logger.LocalTime conf |};
                  Logger.core_level := level |}]
         else [])
        ++ (if Logger.Console conf
            then [{| Logger.core_enc := Logger.NewConsoleEncoder;
                     Logger.core_ws := Logger.Lock_Stdout;
                     Logger.core_level := level |}]
            else []) /\
      (Logger.Filename conf = "" -> Logger.Console conf = false -> Logger.tee logger = []).
Proof.
  intros w conf logger. unfold Logger.NewLogger.
  destruct (Logger.nonempty (Logger.Filename conf)) eqn:Hfile.
  - destruct (Logger.os_MkdirAll w _ _); simpl; [discriminate |].
    destruct (Logger.zapcore_ParseLevel w (Logger.Level conf)) as [level | e]; simpl;
      [| discriminate].
    intros H. injection H as <-. exists level. simpl.
    split; [reflexivity |]. split.
    + destruct (Logger.Console conf); reflexivity.
    + intros Hempty. unfold Logger.nonempty in Hfile. rewrite Hempty in Hfile. discriminate.
  - destruct (Logger.zapcore_ParseLevel w (Logger.Level conf)) as [level | e]; simpl;
      [| discriminate].
    intros H. injection H as <-. exists level. simpl.
    split; [reflexivity |]. split.
    + destruct (Logger.Console conf); reflexivity.
    + intros _ Hcons. rewrite Hcons. reflexivity.
Qed.

Lemma NewLogger_cores_witness :
  exists level,
    Logger.zapcore_ParseLevel Logger.sample_World
      (Logger.Level (Logger.sample_conf "warn" "/var/log/app/app.log" true)) = Ok level /\
    Logger.tee
      {| Logger.tee :=
           [{| Logger.core_enc := Logger.NewJSONEncoder;
               Logger.core_ws :=
                 Logger.AddSync {| Logger.lj_Filename := "/var/log/app/app.log";
                                   Logger.lj_MaxSize := 100;
                                   Logger.lj_MaxBackups := 30;
                                   Logger.lj_MaxAge := 30;
                                   Logger.lj_Compress := true;
                                   Logger.lj_LocalTime := true |};
               Logger.core_level := 1 |};
            {| Logger.core_enc := Logger.NewConsoleEncoder;
               Logger.core_ws := Logger.Lock_Stdout;
               Logger.core_level := 1 |}];
         Logger.AddCaller := true;
         Logger.AddCallerSkip := 1 |} =
      [{| Logger.core_enc := Logger.NewJSONEncoder;
          Logger.core_ws :=
            Logger.AddSync {| Logger.lj_Filename := "/var/log/app/app.log";
                              Logger.lj_MaxSize := 100;
                              Logger.lj_MaxBackups := 30;
                              Logger.lj_MaxAge := 30;
                              Logger.lj_Compress := true;
                              Logger.lj_LocalTime := true |};
          Logger.core_level := level |}]
      ++ [{| Logger.core_enc := Logger.NewConsoleEncoder;
             Logger.core_ws := Logger.Lock_Stdout;
             Logger.core_level := level |}] /\
    (Logger.Filename (Logger.sample_conf "warn" "/var/log/app/app.log" true) = "" ->
     Logger.Console (Logger.sample_conf "warn" "/var/log/app/app.log" true) = false ->
     Logger.tee
       {| Logger.tee :=
            [{| Logger.core_enc := Logger.NewJSONEncoder;
                Logger.core_ws :=
                  Logger.AddSync {| Logger.lj_Filename := "/var/log/app/app.log";
                                    Logger.lj_MaxSize := 100;
                                    Logger.lj_MaxBackups := 30;
                                    Logger.lj_MaxAge := 30;
                                    Logger.lj_Compress := true;
                                    Logger.lj_LocalTime := true |};
                Logger.core_level := 1 |};
             {| Logger.core_enc := Logger.NewConsoleEncoder;
                Logger.core_ws := Logger.Lock_Stdout;
                Logger.core_level := 1 |}];
          Logger.AddCaller := true;
          Logger.AddCallerSkip := 1 |} = []).
Proof.
  apply (NewLogger_cores Logger.sample_World
           (Logger.sample_conf "warn" "/var/log/app/app.log" true)).
  reflexivity.
Defined.

(** ** The errors of [Reload] *)

(** X23.  An error returned by [Reload] is one of three, each wrapping the
    cause the system gave: the executable's path did not resolve, or the
    listener's descriptor could not be duplicated (in both cases no process
    was asked for), or the one [os.StartProcess] call failed. *)
Theorem Reload_error_taxonomy :
  forall (os : OS) (g : GracefulUpgrader) (n : nat) (err : error),
    outcome (Reload os g n) = Done (Some err) ->
    (exists cause,
        os_Executable os n = Err cause /\
        err = fmt_Errorf "failed to get executable path" cause /\
        spawns_of (trace (Reload os g n)) = []) \/
    (exists cause l,
        ln g = Some l /\ TCPListener_File os n l = Err cause /\
        err = fmt_Errorf "failed to get listener file" cause /\
        spawns_of (trace (Reload os g n)) = []) \/
    (exists cause executable l listenerFile,
        ln g = Some l /\ TCPListener_File os n l = Ok listenerFile /\
        os_StartProcess os n executable (os_Args os)
          {| Env := os_Environ os ++ ["GRACEFUL_RESTART=true"];
             Files := [os_Stdin; os_Stdout; os_Stderr; listenerFile] |} = Err cause /\
        err = fmt_Errorf "failed to start new process" cause /\
        length (spawns_of (trace (Reload os g n))) = 1).
Proof.
  intros os g n err. unfold Reload, assert_TCPListener.
  destruct (os_Executable os n) as [executable | e]; simpl.
  2:{ intros H; injection H as <-. left. exists e. auto. }
  destruct (ln g) as [l |]; simpl; [| discriminate].
  destruct (l_type l); simpl; [| discriminate].
  destruct (TCPListener_File os n l) as [listenerFile | e] eqn:Hfile; simpl.
  2:{ intros H; injection H as <-. right; left. exists e, l. auto. }
  destruct (os_StartProcess os n executable (os_Args os) _) as [p | e] eqn:Hstart; simpl.
  - discriminate.
  - intros H; injection H as <-. right; right.
    exists e, executable, l, listenerFile. auto.
Qed.

Lemma Reload_error_taxonomy_witness :
  (exists cause,
      os_Executable (with_failing_spawns linux 1) 0 = Err cause /\
      fmt_Errorf "failed to start new process"
        (errors_New "fork/exec: resource temporarily unavailable") =
        fmt_Errorf "failed to get executable path" cause /\
      spawns_of (trace (Reload (with_failing_spawns linux 1) tcp_upgrader 0)) = []) \/
  (exists cause l,
      ln tcp_upgrader = Some l /\
      TCPListener_File (with_failing_spawns linux 1) 0 l = Err cause /\
      fmt_Errorf "failed to start new process"
        (errors_New "fork/exec: resource temporarily unavailable") =
        fmt_Errorf "failed to get listener file" cause /\
      spawns_of (trace (Reload (with_failing_spawns linux 1) tcp_upgrader 0)) = []) \/
  (exists cause executable l listenerFile,
      ln tcp_upgrader = Some l /\
      TCPListener_File (with_failing_spawns linux 1) 0 l = Ok listenerFile /\
      os_StartProcess (with_failing_spawns linux 1) 0 executable
        (os_Args (with_failing_spawns linux 1))
        {| Env := os_Environ (with_failing_spawns linux 1) ++ ["GRACEFUL_RESTART=true"];
           Files := [os_Stdin; os_Stdout; os_Stderr; listenerFile] |} = Err cause /\
      fmt_Errorf "failed to start new process"
        (errors_New "fork/exec: resource temporarily unavailable") =
        fmt_Errorf "failed to start new process" cause /\
      length (spawns_of (trace (Reload (with_failing_spawns linux 1) tcp_upgrader 0))) = 1).
Proof.
  apply (Reload_error_taxonomy (with_failing_spawns linux 1) tcp_upgrader 0).
  reflexivity.
Defined.
